(** * Cloudreve: hook pipeline and authentication middleware

    A shallow embedding of

    - [pkg/filesystem/hooks.go] (package [filesystem]): the hook registry
      ([Use], [CleanHooks], [Trigger]) and the hook units, and
    - the authentication middleware (package [middleware]): [SignRequired],
      [WebDAVAuth], [uploadCallbackCheck] and the callback gates,

    followed by the properties of these functions.

    Go code that mutates objects behind pointers and calls into stores is
    written in a state monad with a panic outcome; packages of the
    repository that the two files import but that are not part of the
    verified sources ([auth], [models], the storage drivers, the filesystem
    methods, the cache of the hooks) are interfaces ([Class]es), so every
    theorem holds for all of their implementations; the cache store of the
    middleware is a map with a switch for the failure of a delete. *)

From Stdlib Require Import ZArith Bool Lia.
From stdpp Require Import base option list strings gmap.

Local Open Scope string_scope.
Local Open Scope Z_scope.

(** ** Control: state passing with panics *)

(** What a Go call does to a state [S]: it returns a value and leaves a
    state, or it panics (a failed unchecked type assertion). *)
Inductive Outcome (S A : Type) : Type :=
| Returned (a : A) (s : S)
| Panicked (msg : string).
Arguments Returned {S A} a s.
Arguments Panicked {S A} msg.

Definition M (S A : Type) : Type := S -> Outcome S A.

Definition ret {S A} (a : A) : M S A := fun s => Returned a s.

Definition bind {S A B} (m : M S A) (k : A -> M S B) : M S B :=
  fun s =>
    match m s with
    | Returned a s' => k a s'
    | Panicked msg => Panicked msg
    end.

Definition panic {S A} (msg : string) : M S A := fun _ => Panicked msg.
Definition gets {S A} (f : S -> A) : M S A := fun s => Returned (f s) s.
Definition modify {S} (f : S -> S) : M S unit := fun s => Returned tt (f s).

Global Instance M_ret {S} : MRet (M S) := fun A a => ret a.
Global Instance M_bind {S} : MBind (M S) := fun A B k m => bind m k.

(** Run the monadic plumbing of a goal. *)
Ltac run_monad :=
  repeat (unfold mbind, M_bind, mret, M_ret, bind, ret, gets, modify, panic; cbn).

(** ** Package [serializer] *)

Module serializer.

(** Modelled from the spec: the response codes are constants of package
    [serializer], which is not among the sources; section 7 only asks
    that the kinds be distinguishable.  The numbers are those of the
    upstream package; the development uses only that they are pairwise
    different and different from 0, the code of the zero [Response]. *)
Definition CodeCheckLogin : Z := 401.
Definition CodeParamErr : Z := 40001.
Definition CodePolicyNotAllowed : Z := 40006.

(** The uniform JSON envelope [{code, msg, error}]. *)
Record Response : Type := mkResponse {
  Code : Z;
  Msg : string;
  Error : string;
}.

(** [serializer.Response{}] *)
Definition emptyResponse : Response := mkResponse 0 "" "".

Record UploadSession : Type := mkUploadSession {
  UID : Z;
  PolicyID : Z;
  VirtualPath : string;
}.

(** Modelled from the spec: [serializer.Err] is not among the sources;
    section 6 gives the envelope it builds: the code and message passed
    in, and the text of the underlying error when there is one. *)
Definition Err (errCode : Z) (msg : string) (err : option string) : Response :=
  mkResponse errCode msg (default "" err).

(** Modelled from the spec: [serializer.ParamErr], the envelope for a
    parameter error. *)
Definition ParamErr (msg : string) (err : option string) : Response :=
  Err CodeParamErr msg err.

(** Modelled from the spec: [serializer.CheckLogin], the envelope of the
    check-login error (section 4.7, [AuthRequired]). *)
Definition CheckLogin : Response := Err CodeCheckLogin "未登录" None.

End serializer.

(** ** Package [middleware] *)

Module middleware.
Import serializer.

(** A Go [error] of the packages the middleware calls: its message. *)
Record error : Type := errorString { ErrorText : string }.

Record Group : Type := mkGroup {
  WebDAVEnabled : bool;
}.

Record Policy : Type := mkPolicy {
  AccessKey : string;
  SecretKey : string;
}.

Record User : Type := mkUser {
  ID : Z;
  Email : string;
  UserGroup : Group;
  UserPolicy : Policy;
}.

(** [http.Request]: the parts the middleware reads.  [BasicAuth] is the
    result of [Request.BasicAuth()]: [None] when [ok] is false. *)
Record Request : Type := mkRequest {
  Method : string;
  URL : string;
  BasicAuth : option (string * string);
}.

(** Values stored in the request context with [c.Set]. *)
Inductive Value : Type :=
| VUser (u : User)
| VUploadSession (s : UploadSession).

(** What a handler writes as the body. *)
Inductive Body : Type :=
| JSONResponse (r : Response).

(** [gin.Context]: request, route parameters, keys, the response being
    written and the position in the handler chain.  The handlers behind
    this one are not part of the file: [Nexted] records that [c.Next()]
    handed the request to them, [Aborted] that [c.Abort()] cut the chain. *)
Record Context : Type := mkContext {
  Req : Request;
  Params : list (string * string);
  Keys : gmap string Value;
  Header : gmap string (list string);
  Status : Z;
  Written : option Body;
  Aborted : bool;
  Nexted : bool;
}.

(** Values held by the cache store ([interface{}]). *)
Inductive CacheValue : Type :=
| CUploadSession (s : UploadSession)
| COther (tag : string).

(** Calls that leave the package, in the order they are made. *)
Inductive Event : Type :=
| EvCacheGet (key : string)
| EvCacheDeletes (keys : list string) (prefix : string)
| EvGetUserByID (uid : Z)
| EvGetUserByEmail (email : string)
| EvCheckPassword (uid : Z)
| EvCheckRequest (r : Request)
| EvCheckURI (url : string).

(** The state a handler runs in: its [*gin.Context], the cache store and
    the record of outgoing calls.  [CacheDeleteError] is the error with
    which the cache store answers a delete, [None] when the store works. *)
Record State : Type := mkState {
  C : Context;
  Cache : gmap string CacheValue;
  Trace : list Event;
  CacheDeleteError : option error;
}.

(** Package [auth] with the instance [auth.General]: [nil] is [None]. *)
Class AuthPkg : Type := {
  CheckRequest : Request -> option error;
  CheckURI : string -> option error;
}.

(** Package [model]: the user store and the methods of [User] that the
    middleware calls.  Go's [(User, error)] is a pair. *)
Class ModelPkg : Type := {
  GetUserByID : Z -> User * option error;
  GetUserByEmail : string -> User * option error;
  CheckPassword : User -> string -> bool * option error;
  GetPolicyID : User -> Z;
}.

(** *** [gin.Context] methods *)

Definition setC (f : Context -> Context) : M State unit :=
  modify (fun s => mkState (f (C s)) (Cache s) (Trace s) (CacheDeleteError s)).

Definition emit (e : Event) : M State unit :=
  modify (fun s => mkState (C s) (Cache s) (Trace s ++ [e]) (CacheDeleteError s)).

(** [c.Param(name)]: the first parameter of that name, or the empty string. *)
Fixpoint lookupParam (ps : list (string * string)) (name : string) : string :=
  match ps with
  | [] => ""
  | (k, v) :: ps' => if String.eqb k name then v else lookupParam ps' name
  end.

Definition Param (name : string) : M State string :=
  gets (fun s => lookupParam (Params (C s)) name).

Definition Set_ (key : string) (v : Value) : M State unit :=
  setC (fun c => mkContext (Req c) (Params c) (<[key := v]> (Keys c)) (Header c)
                   (Status c) (Written c) (Aborted c) (Nexted c)).

Definition SetHeader (key : string) (v : list string) : M State unit :=
  setC (fun c => mkContext (Req c) (Params c) (Keys c) (<[key := v]> (Header c))
                   (Status c) (Written c) (Aborted c) (Nexted c)).

(** [c.Status(code)] *)
Definition SetStatus (code : Z) : M State unit :=
  setC (fun c => mkContext (Req c) (Params c) (Keys c) (Header c)
                   code (Written c) (Aborted c) (Nexted c)).

(** [c.JSON(code, obj)] *)
Definition JSON (code : Z) (obj : Response) : M State unit :=
  setC (fun c => mkContext (Req c) (Params c) (Keys c) (Header c)
                   code (Some (JSONResponse obj)) (Aborted c) (Nexted c)).

Definition Abort : M State unit :=
  setC (fun c => mkContext (Req c) (Params c) (Keys c) (Header c)
                   (Status c) (Written c) true (Nexted c)).

Definition Next : M State unit :=
  setC (fun c => mkContext (Req c) (Params c) (Keys c) (Header c)
                   (Status c) (Written c) (Aborted c) true).

(** *** Package [cache]

    Modelled from the spec: the cache store of section 6,
    [Get(key) -> (value, found)] and [Delete(keys, prefix) -> error].  A
    delete that the store carries out removes [prefix ++ key] for each key
    and answers nil; a store that is out of reach (section 7, e) answers
    with its error and leaves the entries where they are. *)
Definition cacheGet (key : string) : M State (option CacheValue) :=
  emit (EvCacheGet key) ;;
  gets (fun s => Cache s !! key).

Definition deleteKeys (keys : list string) (prefix : string)
    (m : gmap string CacheValue) : gmap string CacheValue :=
  foldr (fun k acc => delete (prefix +:+ k) acc) m keys.

Definition cacheDeletes (keys : list string) (prefix : string) : M State (option error) :=
  emit (EvCacheDeletes keys prefix) ;;
  failure ← gets CacheDeleteError;
  match failure with
  | Some e => mret (Some e)
  | None =>
      modify (fun s => mkState (C s) (deleteKeys keys prefix (Cache s)) (Trace s)
                               (CacheDeleteError s)) ;;
      mret None
  end.

(** *** Calls into [auth] and [model] *)

Section Handlers.
Context `{!AuthPkg} `{!ModelPkg}.

Definition authCheckRequest (r : Request) : M State (option error) :=
  emit (EvCheckRequest r) ;; ret (CheckRequest r).

Definition authCheckURI (u : string) : M State (option error) :=
  emit (EvCheckURI u) ;; ret (CheckURI u).

Definition modelGetUserByID (uid : Z) : M State (User * option error) :=
  emit (EvGetUserByID uid) ;; ret (GetUserByID uid).

Definition modelGetUserByEmail (email : string) : M State (User * option error) :=
  emit (EvGetUserByEmail email) ;; ret (GetUserByEmail email).

Definition userCheckPassword (u : User) (password : string) : M State (bool * option error) :=
  emit (EvCheckPassword (ID u)) ;; ret (CheckPassword u password).

(** *** [SignRequired] *)
Definition SignRequired : M State unit :=
  r ← gets (fun s => Req (C s));
  err ← (if String.eqb (Method r) "PUT" || String.eqb (Method r) "POST"
         then authCheckRequest r
         else authCheckURI (URL r));
  match err with
  | Some e =>
      JSON 200 (Err CodeCheckLogin (ErrorText e) (Some (ErrorText e))) ;;
      Abort
  | None => Next
  end.

(** The header value [Basic realm="cloudreve"]. *)
Definition basicRealm : string :=
  let q := String (Ascii.ascii_of_nat 34) EmptyString in
  "Basic realm=" +:+ q +:+ "cloudreve" +:+ q.

(** *** [WebDAVAuth] *)
Definition WebDAVAuth : M State unit :=
  r ← gets (fun s => Req (C s));
  if String.eqb (Method r) "OPTIONS" then Next
  else
    match BasicAuth r with
    | None =>
        SetHeader "WWW-Authenticate" [basicRealm] ;;
        SetStatus 401 ;;
        Abort
    | Some (username, password) =>
        '(expectedUser, err) ← modelGetUserByEmail username;
        match err with
        | Some _ => SetStatus 401 ;; Abort
        | None =>
            '(ok, _) ← userCheckPassword expectedUser password;
            if negb ok then SetStatus 401 ;; Abort
            else if negb (WebDAVEnabled (UserGroup expectedUser))
            then SetStatus 403 ;; Abort
            else Set_ "user" (VUser expectedUser) ;; Next
        end
    end.

(** *** [uploadCallbackCheck] *)
Definition uploadCallbackCheck : M State (Response * option User) :=
  callbackKey ← Param "key";
  if String.eqb callbackKey "" then
    ret (ParamErr "Callback Key 不能为空" None, None)
  else
    callbackSessionRaw ← cacheGet ("callback_" +:+ callbackKey);
    match callbackSessionRaw with
    | None => ret (ParamErr "回调会话不存在或已过期" None, None)
    | Some raw =>
        callbackSession ←
          match raw with
          | CUploadSession s => ret s
          | COther _ => panic "interface conversion: not serializer.UploadSession"
          end;
        Set_ "callbackSession" (VUploadSession callbackSession) ;;
        _ ← cacheDeletes [callbackKey] "callback_";
        '(user, err) ← modelGetUserByID (UID callbackSession);
        match err with
        | Some e =>
            ret (Err CodeCheckLogin "找不到用户" (Some (ErrorText e)), None)
        | None =>
            Set_ "user" (VUser user) ;;
            if negb (Z.eqb (GetPolicyID user) (PolicyID callbackSession)) then
              ret (Err CodePolicyNotAllowed "存储策略已变更，请重新上传" None, None)
            else ret (emptyResponse, Some user)
        end
    end.

(** *** [RemoteCallbackAuth]

    The request signature is checked with the HMAC instance keyed by
    the policy secret; [CheckRequestWith] stands for
    [auth.CheckRequest(auth.HMACAuth{SecretKey: ...}, c.Request)]. *)
Definition RemoteCallbackAuth
    (CheckRequestWith : string -> Request -> option error) : M State unit :=
  '(resp, user) ← uploadCallbackCheck;
  if negb (Z.eqb (Code resp) 0) then JSON 200 resp ;; Abort
  else
    match user with
    | None => panic "nil pointer dereference"
    | Some u =>
        r ← gets (fun s => Req (C s));
        match CheckRequestWith (SecretKey (UserPolicy u)) r with
        | Some e =>
            JSON 200 (Err CodeCheckLogin (ErrorText e) (Some (ErrorText e))) ;;
            Abort
        | None => Next
        end
    end.

(** *** [CurrentUser]

    [session] is [sessions.Default(c)], the session that the session
    middleware attached to the request; the login controller stores the id
    of the user under ["user_id"], [None] is the nil interface. *)
Definition CurrentUser (session : gmap string Z) : M State unit :=
  match session !! "user_id" with
  | Some uid =>
      '(user, err) ← modelGetUserByID uid;
      match err with
      | None => Set_ "user" (VUser user)
      | Some _ => (mret tt : M State unit)
      end
  | None => (mret tt : M State unit)
  end ;;
  Next.

(** *** [AuthRequired] *)
Definition AuthRequired : M State unit :=
  user ← gets (fun s => Keys (C s) !! "user");
  match user with
  | Some (VUser _) => Next
  | _ => JSON 200 CheckLogin ;; Abort
  end.

End Handlers.

(** *** Verdicts of a gate

    What a handler did to the context [c] it received, leaving [c']. *)

(** The request was handed to the rest of the chain, nothing was written. *)
Definition admitted (c c' : Context) : Prop :=
  Nexted c' = true ∧ Aborted c' = Aborted c ∧
  Status c' = Status c ∧ Written c' = Written c.

(** The chain was cut with a bare status code: no body was written and the
    request was not handed on. *)
Definition rejectedBare (code : Z) (c c' : Context) : Prop :=
  Status c' = code ∧ Written c' = Written c ∧
  Aborted c' = true ∧ Nexted c' = Nexted c.

(** The chain was cut with a JSON envelope under HTTP status 200. *)
Definition rejectedJSON (resp : Response) (c c' : Context) : Prop :=
  Status c' = 200 ∧ Written c' = Some (JSONResponse resp) ∧
  Aborted c' = true ∧ Nexted c' = Nexted c.

(** The methods that change state on the server (POST, PUT, PATCH,
    DELETE), the "mutating methods" of the description of
    [SignRequired]. *)
Definition mutatingMethod (m : string) : bool :=
  bool_decide (m ∈ ["POST"; "PUT"; "PATCH"; "DELETE"]).

End middleware.

(** ** Package [filesystem] *)

Module filesystem.

(** Go's [error] in package [filesystem]: the sentinel errors of the
    package that the hooks return, and errors that come from a driver or a
    store. *)
Inductive error : Type :=
| ErrFileSizeTooBig
| ErrIllegalObjectName
| ErrFileExtensionNotAllowed
| ErrObjectNotExist
| ErrInsufficientCapacity
| ErrFileUploadSessionExisted
| ErrFileExisted
| ErrInsertFileRecord
| errorString (msg : string).

(** [uint64] addition. *)
Definition add64 (a b : Z) : Z := (a + b) mod 2 ^ 64.

Record Policy : Type := mkPolicy {
  PolicyID : Z;
  PolicyType : string;
}.

Record User : Type := mkUser {
  UserID : Z;
  UserStorage : Z;
}.

Record Folder : Type := mkFolder {
  FolderID : Z;
  FolderName : string;
}.

(** [model.File] *)
Record File : Type := mkFile {
  ID : Z;
  Name : string;
  SourceName : string;
  Size : Z;
  UploadSessionID : option string;
}.

(** The [Model] field of the header, an [interface{}]: [nil], a
    [*model.File] (itself possibly a nil pointer) or a value of another
    type.  The pointee is kept in place. *)
Inductive ModelValue : Type :=
| MNil
| MFilePtr (p : option File)
| MOther.

(** [fsctx.UploadTaskInfo], and the object behind a [fsctx.FileHeader]:
    [file.Info()] is a snapshot of it. *)
Record UploadTaskInfo : Type := mkInfo {
  InfoSize : Z;
  FileName : string;
  VirtualPath : string;
  SavePath : string;
  AppendStart : Z;
  LastModified : Z;
  Model : ModelValue;
}.

Inductive WriteMode : Type := Overwrite | Append | Nop.

(** [fsctx.FileStream] as passed to [Handler.Put]. *)
Record FileStream : Type := mkFileStream {
  StreamFile : string;
  StreamSavePath : string;
  StreamSize : Z;
  StreamMode : WriteMode;
}.

(** Keys and values of a [context.Context]. *)
Inductive CtxKey : Type :=
| FileModelCtx
| CancelFuncCtx
| OtherCtx (n : nat).

Global Instance CtxKey_eq_dec : EqDecision CtxKey.
Proof. solve_decision. Defined.

(** A [context.CancelFunc] is named by the context it cancels. *)
Inductive CtxValue : Type :=
| CtxFile (f : File)
| CtxCancelFunc (target : Z)
| CtxOther.

(** [context.Context]: the chain of [WithValue] bindings, innermost first. *)
Definition Context : Type := list (CtxKey * CtxValue).

(** [ctx.Value(key)]; [None] is the nil interface. *)
Fixpoint Value (ctx : Context) (key : CtxKey) : option CtxValue :=
  match ctx with
  | [] => None
  | (k, v) :: ctx' => if decide (k = key) then Some v else Value ctx' key
  end.

(** The physical objects of a storage backend: path to content. *)
Abbreviation Storage := (gmap string string).

(** The driver interface ([fs.Handler]). *)
Record Handler : Type := mkHandler {
  Put : Context -> FileStream -> Storage -> option error * Storage;
  Delete : Context -> list string -> Storage -> (list string * option error) * Storage;
}.

Inductive LogEntry : Type :=
| LogWarning (format : string) (arg : error).

(** The state a hook runs in: the objects behind [fs] and [file], and the
    stores the hooks reach. *)
Record State : Type := mkState {
  FsUser : User;
  FsPolicy : Policy;
  FsHandler : Handler;
  Header : UploadTaskInfo;
  Objects : Storage;
  Files : gmap Z File;
  StoreOnline : bool;
  SessionCache : gmap string string;
  Cancelled : gset Z;
  Log : list LogEntry;
}.

(** [type Hook func(ctx, fs, file) error]; [fs] and [file] are pointers,
    the objects they point to are in the [State]. *)
Definition Hook : Type := Context -> M State (option error).

(** The [Hooks] field of [FileSystem]; the other fields are in the
    [State].  The nil map reads like the empty one. *)
Record FileSystem : Type := mkFileSystem {
  Hooks : gmap string (list Hook);
}.

(** Methods of [FileSystem] and of the models that live in other files. *)
Class FsMethods : Type := {
  ValidateFileSize : Context -> Z -> M State bool;
  ValidateLegalName : Context -> string -> M State bool;
  ValidateExtension : Context -> string -> M State bool;
  DispatchHandler : M State (option error);
  CreateDirectory : Context -> string -> M State (option Folder * option error);
  IsChildFileExist : option Folder -> string -> M State (bool * option File);
  AddFile : Context -> option Folder -> M State (option File * option error);
  GetRemainingCapacity : User -> Z;
  GetPolicy : File -> Policy;
}.

(** Package [cache] as the hooks call it: [Deletes keys prefix] acts on the
    session cache and answers with an error or nil. *)
Class CachePkg : Type := {
  Deletes : list string -> string -> gmap string string
            -> option error * gmap string string;
}.

(** *** State accessors *)

Definition setHeader (h : UploadTaskInfo) (s : State) : State :=
  mkState (FsUser s) (FsPolicy s) (FsHandler s) h (Objects s) (Files s)
          (StoreOnline s) (SessionCache s) (Cancelled s) (Log s).

Definition setObjects (o : Storage) (s : State) : State :=
  mkState (FsUser s) (FsPolicy s) (FsHandler s) (Header s) o (Files s)
          (StoreOnline s) (SessionCache s) (Cancelled s) (Log s).

Definition setFiles (f : gmap Z File) (s : State) : State :=
  mkState (FsUser s) (FsPolicy s) (FsHandler s) (Header s) (Objects s) f
          (StoreOnline s) (SessionCache s) (Cancelled s) (Log s).

Definition setPolicy (p : Policy) (s : State) : State :=
  mkState (FsUser s) p (FsHandler s) (Header s) (Objects s) (Files s)
          (StoreOnline s) (SessionCache s) (Cancelled s) (Log s).

Definition setSessionCache (c : gmap string string) (s : State) : State :=
  mkState (FsUser s) (FsPolicy s) (FsHandler s) (Header s) (Objects s) (Files s)
          (StoreOnline s) c (Cancelled s) (Log s).

Definition setCancelled (c : gset Z) (s : State) : State :=
  mkState (FsUser s) (FsPolicy s) (FsHandler s) (Header s) (Objects s) (Files s)
          (StoreOnline s) (SessionCache s) c (Log s).

Definition setLog (l : list LogEntry) (s : State) : State :=
  mkState (FsUser s) (FsPolicy s) (FsHandler s) (Header s) (Objects s) (Files s)
          (StoreOnline s) (SessionCache s) (Cancelled s) l.

(** [util.Log().Warning(format, err)] *)
Definition Warning (format : string) (arg : error) : M State unit :=
  modify (fun s => setLog (Log s ++ [LogWarning format arg]) s).

(** *** The header ([fsctx.FileHeader]) *)

Definition Info : M State UploadTaskInfo := gets Header.

Definition SetSize (size : Z) : M State unit :=
  modify (fun s =>
    let h := Header s in
    setHeader (mkInfo size (FileName h) (VirtualPath h) (SavePath h)
                      (AppendStart h) (LastModified h) (Model h)) s).

Definition SetModel (m : ModelValue) : M State unit :=
  modify (fun s =>
    let h := Header s in
    setHeader (mkInfo (InfoSize h) (FileName h) (VirtualPath h) (SavePath h)
                      (AppendStart h) (LastModified h) m) s).

(** *** The driver *)

Definition handlerDelete (ctx : Context) (paths : list string)
    : M State (list string * option error) :=
  fun s =>
    let '(r, o) := Delete (FsHandler s) ctx paths (Objects s) in
    Returned r (setObjects o s).

Definition handlerPut (ctx : Context) (f : FileStream) : M State (option error) :=
  fun s =>
    let '(r, o) := Put (FsHandler s) ctx f (Objects s) in
    Returned r (setObjects o s).

(** *** The session cache *)

Definition cacheDeletes `{!CachePkg} (keys : list string) (prefix : string)
    : M State (option error) :=
  fun s =>
    let '(err, c) := Deletes keys prefix (SessionCache s) in
    Returned err (setSessionCache c s).

(** *** The file-record store

    Modelled from the spec: the methods [UpdateSize] and
    [UpdateSourceName] of [model.File] are not among the sources.
    Section 6 gives the contract (update-size, update-source-name on the
    persisted record) and section 7 the failure (store unavailable,
    propagated unchanged): when the store is reachable the record with
    the file's id and the receiver are both updated, otherwise an error
    comes back and nothing changes. *)
Definition withSize (value : Z) (f : File) : File :=
  mkFile (ID f) (Name f) (SourceName f) value (UploadSessionID f).

Definition withSourceName (value : string) (f : File) : File :=
  mkFile (ID f) (Name f) value (Size f) (UploadSessionID f).

Definition ErrStoreUnavailable : error := errorString "store unavailable".

Definition UpdateSize (file : File) (value : Z) : M State (File * option error) :=
  fun s =>
    if StoreOnline s
    then Returned (withSize value file, None)
                  (setFiles (alter (withSize value) (ID file) (Files s)) s)
    else Returned (file, Some ErrStoreUnavailable) s.

Definition UpdateSourceName (file : File) (value : string) : M State (File * option error) :=
  fun s =>
    if StoreOnline s
    then Returned (withSourceName value file, None)
                  (setFiles (alter (withSourceName value) (ID file) (Files s)) s)
    else Returned (file, Some ErrStoreUnavailable) s.

(** The size the store holds for a record. *)
Definition persistedSize (s : State) (id : Z) : option Z :=
  Size <$> Files s !! id.

(** *** The hook registry *)

(** [Use] *)
Definition Use (fs : FileSystem) (name : string) (hook : Hook) : FileSystem :=
  match Hooks fs !! name with
  | Some hooks => mkFileSystem (<[name := (hooks ++ [hook])%list]> (Hooks fs))
  | None => mkFileSystem (<[name := [hook]]> (Hooks fs))
  end.

(** [CleanHooks] *)
Definition CleanHooks (fs : FileSystem) (name : string) : FileSystem :=
  if String.eqb name ""
  then mkFileSystem ∅
  else mkFileSystem (delete name (Hooks fs)).

(** The [for _, hook := range hooks] loop of [Trigger]. *)
Fixpoint rangeHooks (hooks : list Hook) (ctx : Context) : M State (option error) :=
  match hooks with
  | [] => mret None
  | hook :: rest =>
      err ← hook ctx;
      match err with
      | Some e =>
          Warning "Failed to execute hook：%s" e ;;
          mret (Some e)
      | None => rangeHooks rest ctx
      end
  end.

(** [Trigger] *)
Definition Trigger (fs : FileSystem) (ctx : Context) (name : string)
    : M State (option error) :=
  match Hooks fs !! name with
  | Some hooks => rangeHooks hooks ctx
  | None => mret None
  end.

(** The hooks that the loop of [Trigger] calls from state [s], in call
    order: each hook of the list up to and including the first one that
    does not return nil. *)
Fixpoint invoked (hooks : list Hook) (ctx : Context) (s : State) : list Hook :=
  match hooks with
  | [] => []
  | hook :: rest =>
      hook ::
      match hook ctx s with
      | Returned None s' => invoked rest ctx s'
      | _ => []
      end
  end.

Definition TriggerInvoked (fs : FileSystem) (ctx : Context) (name : string)
    (s : State) : list Hook :=
  match Hooks fs !! name with
  | Some hooks => invoked hooks ctx s
  | None => []
  end.

(** *** The hook units *)

Section Hooks.
Context `{!FsMethods}.

(** [HookValidateFile] *)
Definition HookValidateFile : Hook := fun ctx =>
  fileInfo ← Info;
  okSize ← ValidateFileSize ctx (InfoSize fileInfo);
  if negb okSize then mret (Some ErrFileSizeTooBig)
  else
    okName ← ValidateLegalName ctx (FileName fileInfo);
    if negb okName then mret (Some ErrIllegalObjectName)
    else
      okExt ← ValidateExtension ctx (FileName fileInfo);
      if negb okExt then mret (Some ErrFileExtensionNotAllowed)
      else mret None.

(** [HookResetPolicy] *)
Definition HookResetPolicy : Hook := fun ctx =>
  match Value ctx FileModelCtx with
  | Some (CtxFile originFile) =>
      modify (setPolicy (GetPolicy originFile)) ;;
      DispatchHandler
  | _ => mret (Some ErrObjectNotExist)
  end.

(** [HookValidateCapacity] *)
Definition HookValidateCapacity : Hook := fun ctx =>
  user ← gets FsUser;
  fileInfo ← Info;
  if Z.ltb (GetRemainingCapacity user) (InfoSize fileInfo)
  then mret (Some ErrInsufficientCapacity)
  else mret None.

(** [HookValidateCapacityDiff]: the type assertion on the context value
    has no [ok] result, so it panics when the value is not a
    [model.File]. *)
Definition HookValidateCapacityDiff : Hook := fun ctx =>
  match Value ctx FileModelCtx with
  | Some (CtxFile originFile) =>
      newFileSize ← gets (fun s => InfoSize (Header s));
      if Z.gtb newFileSize (Size originFile)
      then HookValidateCapacity ctx
      else mret None
  | _ => panic "interface conversion: interface {} is not model.File"
  end.

(** [HookDeleteTempFile] *)
Definition HookDeleteTempFile : Hook := fun ctx =>
  fileInfo ← Info;
  '(_, err) ← handlerDelete ctx [SavePath fileInfo];
  match err with
  | Some e => Warning "Failed to clean-up temp files: %s" e
  | None => (mret tt : M State unit)
  end ;;
  mret None.

(** [HookCleanFileContent] *)
Definition HookCleanFileContent : Hook := fun ctx =>
  fileInfo ← Info;
  handlerPut ctx (mkFileStream "" (SavePath fileInfo) 0 Overwrite).

(** [HookClearFileSize]: [originFile] is a copy of the context value. *)
Definition HookClearFileSize : Hook := fun ctx =>
  match Value ctx FileModelCtx with
  | Some (CtxFile originFile) =>
      '(_, err) ← UpdateSize originFile 0;
      mret err
  | _ => mret (Some ErrObjectNotExist)
  end.

(** [HookCancelContext] *)
Definition HookCancelContext : Hook := fun ctx =>
  match Value ctx CancelFuncCtx with
  | Some (CtxCancelFunc target) =>
      modify (fun s => setCancelled ({[target]} ∪ Cancelled s) s)
  | _ => (mret tt : M State unit)
  end ;;
  mret None.

(** [HookUpdateSourceName] *)
Definition HookUpdateSourceName : Hook := fun ctx =>
  match Value ctx FileModelCtx with
  | Some (CtxFile originFile) =>
      '(_, err) ← UpdateSourceName originFile (SourceName originFile);
      mret err
  | _ => mret (Some ErrObjectNotExist)
  end.

(** [GenericAfterUpload] *)
Definition GenericAfterUpload : Hook := fun ctx =>
  fileInfo ← Info;
  '(folder, err) ← CreateDirectory ctx (VirtualPath fileInfo);
  match err with
  | Some e => mret (Some e)
  | None =>
      '(ok, file) ← IsChildFileExist folder (FileName fileInfo);
      if (ok : bool) then
        match file with
        | None => panic "nil pointer dereference"
        | Some f =>
            match UploadSessionID f with
            | Some _ => mret (Some ErrFileUploadSessionExisted)
            | None => mret (Some ErrFileExisted)
            end
        end
      else
        '(file, err) ← AddFile ctx folder;
        match err with
        | Some _ => mret (Some ErrInsertFileRecord)
        | None =>
            SetModel (MFilePtr file) ;;
            mret None
        end
  end.

(** [HookClearFileHeaderSize] *)
Definition HookClearFileHeaderSize : Hook := fun ctx =>
  SetSize 0 ;;
  mret None.

(** [UpdateSize(value)] on [fileInfo.Model] asserted to be a pointer to
    [model.File]: the assertion panics unless [Model] holds such a
    pointer, the call panics on a nil pointer; the pointee is updated in
    place. *)
Definition modelUpdateSize (fileInfo : UploadTaskInfo) (value : Z)
    : M State (option error) :=
  match Model fileInfo with
  | MFilePtr (Some f) =>
      '(f', err) ← UpdateSize f value;
      SetModel (MFilePtr (Some f')) ;;
      mret err
  | MFilePtr None => panic "nil pointer dereference"
  | _ => panic "interface conversion: interface {} is not *model.File"
  end.

(** [HookChunkUploaded] *)
Definition HookChunkUploaded : Hook := fun ctx =>
  fileInfo ← Info;
  modelUpdateSize fileInfo (add64 (AppendStart fileInfo) (InfoSize fileInfo)).

(** [HookChunkUploadFailed] *)
Definition HookChunkUploadFailed : Hook := fun ctx =>
  fileInfo ← Info;
  modelUpdateSize fileInfo (AppendStart fileInfo).

(** [HookDeleteUploadSession]; [prefix] is [UploadSessionCachePrefix].  The
    result of [cache.Deletes] is not used. *)
Definition HookDeleteUploadSession `{!CachePkg} (prefix id : string) : Hook := fun ctx =>
  _ ← cacheDeletes [id] prefix;
  mret None.

(** [GenericAfterUpdate]: the header's model is a pointer to the local
    [originFile], so the header sees what [UpdateSize] does to it. *)
Definition GenericAfterUpdate : Hook := fun ctx =>
  match Value ctx FileModelCtx with
  | Some (CtxFile originFile) =>
      SetModel (MFilePtr (Some originFile)) ;;
      newFileInfo ← Info;
      '(originFile', err) ← UpdateSize originFile (InfoSize newFileInfo);
      SetModel (MFilePtr (Some originFile')) ;;
      match err with
      | Some e => mret (Some e)
      | None => mret None
      end
  | _ => mret (Some ErrObjectNotExist)
  end.

End Hooks.

(** *** Vocabulary of the properties *)

(** The hooks of a list run one after the other from [s] to [s'], each
    returning nil. *)
Inductive allNil (ctx : Context) : list Hook -> State -> State -> Prop :=
| allNil_nil s : allNil ctx [] s s
| allNil_cons hook rest s s1 s2 :
    hook ctx s = Returned None s1 ->
    allNil ctx rest s1 s2 ->
    allNil ctx (hook :: rest) s s2.

(** Two states that differ at most in the log. *)
Definition sameButLog (s s' : State) : Prop := setLog [] s = setLog [] s'.

(** Running the computation again, from the state its run from [s] left,
    returns the same result and leaves that state as it is (resp. as it
    is up to the log). *)
Definition idempotentAt {A} (m : M State A) (s : State) : Prop :=
  ∀ r s1, m s = Returned r s1 -> m s1 = Returned r s1.

Definition idempotentButLogAt {A} (m : M State A) (s : State) : Prop :=
  ∀ r s1, m s = Returned r s1 ->
    ∃ s2, m s1 = Returned r s2 ∧ sameButLog s1 s2.

Definition idempotent {A} (m : M State A) : Prop := ∀ s, idempotentAt m s.

(** The driver's [Delete] of these paths (resp. [Put] of this stream),
    repeated on the store it left, answers the same and leaves the store
    as it is. *)
Definition deleteIdempotent (h : Handler) (ctx : Context) (paths : list string) : Prop :=
  ∀ o r o', Delete h ctx paths o = (r, o') -> Delete h ctx paths o' = (r, o').

Definition putIdempotent (h : Handler) (ctx : Context) (f : FileStream) : Prop :=
  ∀ o r o', Put h ctx f o = (r, o') -> Put h ctx f o' = (r, o').

End filesystem.

(** ** Concrete collaborators

    Small implementations of the interfaces, used to run the handlers and
    hooks on concrete requests. *)

Module fixtures.
Import serializer middleware.

Definition alice : User :=
  mkUser 7 "alice@example.com" (mkGroup true) (mkPolicy "ak" "sk").

Definition bob : User :=
  mkUser 8 "bob@example.com" (mkGroup false) (mkPolicy "ak" "sk").

Definition noUser : User := mkUser 0 "" (mkGroup false) (mkPolicy "" "").

(** A user store holding [alice] and [bob]; every user is on policy 3 and
    has the password ["secret"]. *)
Definition twoUsers : ModelPkg := {|
  GetUserByID uid :=
    if Z.eqb uid 7 then (alice, None)
    else if Z.eqb uid 8 then (bob, None)
    else (noUser, Some (errorString "record not found"));
  GetUserByEmail email :=
    if String.eqb email "alice@example.com" then (alice, None)
    else if String.eqb email "bob@example.com" then (bob, None)
    else (noUser, Some (errorString "record not found"));
  CheckPassword u password := (String.eqb password "secret", None);
  GetPolicyID u := 3;
|}.

(** A signature checker that accepts every signed URI and no request body. *)
Definition uriOnly : AuthPkg := {|
  CheckRequest r := Some (errorString "invalid sign");
  CheckURI u := None;
|}.

Definition freshContext (r : Request) (ps : list (string * string)) : Context :=
  mkContext r ps ∅ ∅ 200 None false false.

Definition request (method : string) (auth : option (string * string)) : Request :=
  mkRequest method "/api/v3/slave/object?sign=x" auth.

Definition requestState (method : string) (auth : option (string * string)) : State :=
  mkState (freshContext (request method auth) []) ∅ [] None.

Definition callbackState (policy : Z) : State :=
  mkState (freshContext (request "POST" None) [("key", "k1")])
          {[ "callback_k1" := CUploadSession (mkUploadSession 7 policy "/") ]}
          [] None.

(** The cache holds a value of another type under the callback key. *)
Definition foreignCacheState : State :=
  mkState (freshContext (request "POST" None) [("key", "k1")])
          {[ "callback_k1" := COther "string" ]}
          [] None.

(** A request-signature checker keyed by the policy secret: it accepts the
    requests of the policy whose secret is ["sk"] and DELETE for none. *)
Definition secretSk (secret : string) (r : Request) : option error :=
  if String.eqb secret "sk" && negb (String.eqb (Method r) "DELETE")
  then None
  else Some (errorString "invalid sign").

(** The same callback as [callbackState], sent with DELETE. *)
Definition unsignedCallbackState : State :=
  mkState (freshContext (request "DELETE" None) [("key", "k1")])
          {[ "callback_k1" := CUploadSession (mkUploadSession 7 3 "/") ]}
          [] None.

(** The callback of [callbackState 3] while the cache store refuses to
    delete. *)
Definition stuckCacheState : State :=
  mkState (freshContext (request "POST" None) [("key", "k1")])
          {[ "callback_k1" := CUploadSession (mkUploadSession 7 3 "/") ]}
          [] (Some (errorString "cache unavailable")).

(** A session of a logged-in user, and one of a user that is gone. *)
Definition aliceSession : gmap string Z := {[ "user_id" := 7 ]}.
Definition staleSession : gmap string Z := {[ "user_id" := 99 ]}.

End fixtures.

Module fsfixtures.
Import filesystem.

(** An in-memory driver: [Put] writes (or appends to) the object, [Delete]
    removes the objects; both always succeed. *)
Definition memDriver : Handler := {|
  Put ctx f o :=
    (None,
     match StreamMode f with
     | Overwrite => <[StreamSavePath f := StreamFile f]> o
     | Append => <[StreamSavePath f := default "" (o !! StreamSavePath f) +:+ StreamFile f]> o
     | Nop => o
     end);
  Delete ctx paths o := (([] : list string, None), foldr delete o paths);
|}.

(** A driver that is out of reach. *)
Definition downDriver : Handler := {|
  Put ctx f o := (Some (errorString "driver unavailable"), o);
  Delete ctx paths o := ((paths, Some (errorString "driver unavailable")), o);
|}.

Definition report : File := mkFile 1 "report.pdf" "uploads/1_report.pdf" 40 None.
Definition draft : File := mkFile 2 "draft.txt" "uploads/2_draft.txt" 0 (Some "session-9").

(** The first record of the store with the given name. *)
Definition findByName (name : string) (files : gmap Z File) : option File :=
  snd <$> List.find (fun kv => String.eqb (Name (snd kv)) name) (map_to_list files).

(** Filesystem methods over the state: files up to 1000 units, non-empty
    names, every extension but [.exe]; one root folder; a quota of 100
    units per user. *)
Definition simpleFs : FsMethods := {|
  ValidateFileSize ctx size := mret (Z.leb size 1000);
  ValidateLegalName ctx name := mret (negb (String.eqb name ""));
  ValidateExtension ctx name := mret (negb (String.eqb name "setup.exe"));
  DispatchHandler := mret None;
  CreateDirectory ctx path := mret (Some (mkFolder 1 path), None);
  IsChildFileExist folder name :=
    gets (fun s =>
      match findByName name (Files s) with
      | Some f => (true, Some f)
      | None => (false, None)
      end);
  AddFile ctx folder := fun s =>
    if StoreOnline s then
      let h := Header s in
      let f := mkFile 3 (FileName h) (SavePath h) (InfoSize h) None in
      Returned (Some f, None) (setFiles (<[3 := f]> (Files s)) s)
    else Returned (None, Some ErrStoreUnavailable) s;
  GetRemainingCapacity u := Z.max 0 (100 - UserStorage u);
  GetPolicy f := mkPolicy 1 "local";
|}.

Definition header (name : string) (size appendStart : Z) (model : ModelValue)
    : UploadTaskInfo :=
  mkInfo size name "/" ("uploads/" +:+ name) appendStart 0 model.

(** A state with two records in the store and one object on the backend. *)
Definition state (used : Z) (h : UploadTaskInfo) (driver : Handler) (online : bool)
    : State :=
  mkState (mkUser 1 used) (mkPolicy 1 "local") driver h
          {[ "uploads/1_report.pdf" := "PDF" ]}
          {[ 1 := report; 2 := draft ]}
          online ∅ ∅ [].

(** A user whose quota is used up uploads 50 units. *)
Definition fullQuotaState : State :=
  state 100 (header "a.txt" 50 0 MNil) memDriver true.

(** Three hooks registered, in this order, under one name. *)
Definition pipeline : FileSystem :=
  Use (Use (Use (mkFileSystem ∅)
                "BeforeUpload" HookCancelContext)
           "BeforeUpload" (@HookValidateCapacity simpleFs))
      "BeforeUpload" HookClearFileHeaderSize.

(** An in-memory session cache: [Deletes] removes [prefix ++ key] for each
    key and answers nil. *)
Definition memCache : CachePkg := {|
  Deletes keys prefix c := (None, foldr (fun k acc => delete (prefix +:+ k) acc) c keys);
|}.

(** A session cache that is out of reach. *)
Definition downCache : CachePkg := {|
  Deletes keys prefix c := (Some (errorString "cache unavailable"), c);
|}.

(** A state whose session cache holds two upload sessions. *)
Definition sessionState : State :=
  setSessionCache {[ "callback_k1" := "session 1"; "callback_k2" := "session 2" ]}
    fullQuotaState.

(** The same methods with a directory store that is out of reach. *)
Definition noDirectoryFs : FsMethods := {|
  ValidateFileSize := @ValidateFileSize simpleFs;
  ValidateLegalName := @ValidateLegalName simpleFs;
  ValidateExtension := @ValidateExtension simpleFs;
  DispatchHandler := @DispatchHandler simpleFs;
  CreateDirectory ctx path := mret (None, Some (errorString "directory store unavailable"));
  IsChildFileExist := @IsChildFileExist simpleFs;
  AddFile := @AddFile simpleFs;
  GetRemainingCapacity := @GetRemainingCapacity simpleFs;
  GetPolicy := @GetPolicy simpleFs;
|}.

End fsfixtures.

(** * Properties of the middleware *)

Lemma eqb_false_of_ne (a b : string) : a ≠ b -> String.eqb a b = false.
Proof. intros Hne. apply String.eqb_neq. exact Hne. Qed.

(** C1 (as amended). [uploadCallbackCheck] asks the cache to delete the
    session before it looks at the user, and does not use the answer:
    whenever the callback key is present and the cache holds an upload
    session under it, the call returns, the calls that leave the package are
    exactly the cache lookup, then the cache deletion, then the user lookup;
    when the cache carries the deletion out the entry is absent afterwards,
    whatever the answer of the call, and when the cache answers with an
    error the entry stays and the call goes on all the same; in both cases a
    user whose current policy id differs from the one of the session is
    answered with the policy-not-allowed error and no user. *)
Theorem uploadCallbackCheck_single_use
    `{!middleware.ModelPkg} (st : middleware.State) (key : string)
    (sess : serializer.UploadSession) :
  let k := "callback_" +:+ key in
  middleware.lookupParam (middleware.Params (middleware.C st)) "key" = key ->
  key ≠ "" ->
  middleware.Cache st !! k = Some (middleware.CUploadSession sess) ->
  ∃ resp user st',
    middleware.uploadCallbackCheck st = Returned (resp, user) st' ∧
    middleware.Trace st' =
      (middleware.Trace st ++
        [middleware.EvCacheGet k;
         middleware.EvCacheDeletes [key] "callback_";
         middleware.EvGetUserByID (serializer.UID sess)])%list ∧
    (middleware.CacheDeleteError st = None ->
       middleware.Cache st' = delete k (middleware.Cache st) ∧
       middleware.Cache st' !! k = None) ∧
    (middleware.CacheDeleteError st ≠ None ->
       middleware.Cache st' = middleware.Cache st) ∧
    (∀ u, middleware.GetUserByID (serializer.UID sess) = (u, None) ->
          middleware.GetPolicyID u ≠ serializer.PolicyID sess ->
          serializer.Code resp = serializer.CodePolicyNotAllowed ∧ user = None) ∧
    (∀ u, middleware.GetUserByID (serializer.UID sess) = (u, None) ->
          middleware.GetPolicyID u = serializer.PolicyID sess ->
          resp = serializer.emptyResponse ∧ user = Some u) ∧
    (∀ u e, middleware.GetUserByID (serializer.UID sess) = (u, Some e) ->
          serializer.Code resp = serializer.CodeCheckLogin ∧ user = None).
Proof.
  intros k Hparam Hkey Hget.
  unfold middleware.uploadCallbackCheck, middleware.Param. run_monad.
  rewrite Hparam, (eqb_false_of_ne _ _ Hkey).
  unfold middleware.cacheGet, middleware.emit. run_monad.
  fold k. rewrite Hget.
  unfold middleware.Set_, middleware.cacheDeletes, middleware.modelGetUserByID,
    middleware.setC, middleware.emit. run_monad.
  destruct (middleware.CacheDeleteError st) as [failure|] eqn:Hfail; run_monad;
    destruct (middleware.GetUserByID (serializer.UID sess)) as [u err] eqn:Hu;
    (destruct err as [e|]; run_monad;
     [|destruct (Z.eqb_spec (middleware.GetPolicyID u) (serializer.PolicyID sess));
       run_monad]);
    (eexists _, _, _; split; [reflexivity|]; cbn;
     rewrite <- !app_assoc; cbn; fold k;
     split_and!; try reflexivity; try done;
     try (intros _; split; [reflexivity | apply lookup_delete_eq]);
     intros; simplify_eq; done).
Qed.

Lemma uploadCallbackCheck_single_use_witness :
  ∃ resp user st',
    @middleware.uploadCallbackCheck fixtures.twoUsers (fixtures.callbackState 4)
      = Returned (resp, user) st' ∧
    middleware.Cache st' !! "callback_k1" = None ∧
    serializer.Code resp = serializer.CodePolicyNotAllowed ∧ user = None.
Proof.
  destruct (@uploadCallbackCheck_single_use fixtures.twoUsers
              (fixtures.callbackState 4) "k1" (serializer.mkUploadSession 7 4 "/"))
    as (resp & user & st' & Hrun & _ & Hdeleted & _ & Hpolicy & _).
  - reflexivity.
  - discriminate.
  - reflexivity.
  - exists resp, user, st'. split; [exact Hrun|]. split.
    + apply Hdeleted. reflexivity.
    + apply (Hpolicy fixtures.alice); [reflexivity | discriminate].
Defined.

(** C1, the claim as written fails: the error of the cache deletion is
    discarded, so with a cache that refuses to delete the call still
    succeeds, returns the user, and the session is in the cache afterwards. *)
Lemma uploadCallbackCheck_failed_delete_counterexample :
  middleware.Cache fixtures.stuckCacheState !! "callback_k1"
    = Some (middleware.CUploadSession (serializer.mkUploadSession 7 3 "/")) ∧
  ∃ st',
    @middleware.uploadCallbackCheck fixtures.twoUsers fixtures.stuckCacheState
      = Returned (serializer.emptyResponse, Some fixtures.alice) st' ∧
    middleware.Trace st' =
      [middleware.EvCacheGet "callback_k1";
       middleware.EvCacheDeletes ["k1"] "callback_";
       middleware.EvGetUserByID 7] ∧
    middleware.Cache st' !! "callback_k1"
      = Some (middleware.CUploadSession (serializer.mkUploadSession 7 3 "/")) ∧
    middleware.Cache st' !! "callback_k1" ≠ None.
Proof.
  split; [reflexivity|].
  eexists. split; [reflexivity|]. cbn.
  split; [reflexivity|]. split; [reflexivity | discriminate].
Qed.

(** C6 (as amended). [SignRequired] checks a full-request signature exactly
    when the method is "PUT" or "POST" and a URI-only signature for every
    other method (DELETE and PATCH among them); it makes that one check and
    no other call; an error of the check is answered with the JSON envelope
    of code [CodeCheckLogin] and the chain is cut, no error hands the
    request on. *)
Theorem SignRequired_put_post_full_request
    `{!middleware.AuthPkg} (st : middleware.State) :
  ∃ st' verdict,
    middleware.SignRequired st = Returned tt st' ∧
    middleware.Cache st' = middleware.Cache st ∧
    (let r := middleware.Req (middleware.C st) in
     (middleware.Method r = "PUT" ∨ middleware.Method r = "POST" ->
        verdict = middleware.CheckRequest r ∧
        middleware.Trace st' = (middleware.Trace st ++ [middleware.EvCheckRequest r])%list) ∧
     (middleware.Method r ≠ "PUT" -> middleware.Method r ≠ "POST" ->
        verdict = middleware.CheckURI (middleware.URL r) ∧
        middleware.Trace st' =
          (middleware.Trace st ++ [middleware.EvCheckURI (middleware.URL r)])%list)) ∧
    (∀ e, verdict = Some e ->
        middleware.rejectedJSON
          (serializer.Err serializer.CodeCheckLogin (middleware.ErrorText e)
                          (Some (middleware.ErrorText e)))
          (middleware.C st) (middleware.C st') ∧
        serializer.Code (serializer.Err serializer.CodeCheckLogin (middleware.ErrorText e)
                          (Some (middleware.ErrorText e))) = serializer.CodeCheckLogin) ∧
    (verdict = None -> middleware.admitted (middleware.C st) (middleware.C st')).
Proof.
  unfold middleware.SignRequired, middleware.authCheckRequest, middleware.authCheckURI,
    middleware.emit, middleware.JSON, middleware.Abort, middleware.Next, middleware.setC.
  run_monad.
  set (r := middleware.Req (middleware.C st)).
  destruct (String.eqb_spec (middleware.Method r) "PUT") as [Hput|Hput];
    [|destruct (String.eqb_spec (middleware.Method r) "POST") as [Hpost|Hpost]];
    run_monad.
  1,2: destruct (middleware.CheckRequest r) as [e|] eqn:Hv; run_monad;
       eexists _, _; (split; [reflexivity|]); cbn;
       (split_and!;
        [ reflexivity
        | intros _; split; reflexivity
        | intros; congruence
        | intros; simplify_eq; by repeat split
        | intros; simplify_eq; by repeat split ]).
  destruct (middleware.CheckURI (middleware.URL r)) as [e|] eqn:Hv; run_monad;
    eexists _, _; (split; [reflexivity|]); cbn;
    (split_and!;
     [ reflexivity
     | intros [?|?]; congruence
     | intros _ _; split; reflexivity
     | intros; simplify_eq; by repeat split
     | intros; simplify_eq; by repeat split ]).
Qed.

(** C6, the claim as written fails: DELETE is a mutating method, and a
    DELETE request is checked with the URI-only signature; with a checker
    that rejects every full-request signature it is handed on. *)
Lemma SignRequired_delete_counterexample :
  middleware.mutatingMethod "DELETE" = true ∧
  @middleware.CheckRequest fixtures.uriOnly
     (middleware.Req (middleware.C (fixtures.requestState "DELETE" None))) ≠ None ∧
  ∃ st',
    @middleware.SignRequired fixtures.uriOnly (fixtures.requestState "DELETE" None)
      = Returned tt st' ∧
    middleware.Trace st' = [middleware.EvCheckURI "/api/v3/slave/object?sign=x"] ∧
    (∀ r, middleware.EvCheckRequest r ∉ middleware.Trace st') ∧
    middleware.Nexted (middleware.C st') = true ∧
    middleware.Aborted (middleware.C st') = false.
Proof.
  split; [reflexivity|]. split; [discriminate|].
  eexists. split; [reflexivity|]. cbn.
  split_and!; try reflexivity.
  intros r Hin. apply list_elem_of_singleton in Hin. discriminate.
Qed.

Lemma SignRequired_put_post_full_request_witness :
  ∃ st',
    @middleware.SignRequired fixtures.uriOnly (fixtures.requestState "POST" None)
      = Returned tt st' ∧
    middleware.Aborted (middleware.C st') = true ∧
    middleware.Trace st' =
      [middleware.EvCheckRequest (fixtures.request "POST" None)].
Proof.
  destruct (@SignRequired_put_post_full_request fixtures.uriOnly
              (fixtures.requestState "POST" None))
    as (st' & verdict & Hrun & _ & [Hfull _] & Hrej & _).
  destruct (Hfull (or_intror eq_refl)) as [Hv Htrace].
  destruct (Hrej (middleware.errorString "invalid sign") Hv) as [(_ & _ & Habort & _) _].
  exists st'. split; [exact Hrun|]. split; [exact Habort | exact Htrace].
Defined.

(** C7. [WebDAVAuth]: an OPTIONS request is handed on without any call to
    the user store; for every other method, missing basic credentials, an
    unknown user and a wrong password each give the bare status 401, a user
    whose group has WebDAV disabled gives the bare status 403, in each case
    with the chain cut and no body written; otherwise the user is bound to
    the context and the request handed on.  A request that was not handed on
    before is handed on only in the first and the last case. *)
Theorem WebDAVAuth_gate `{!middleware.ModelPkg} (st : middleware.State) :
  let r := middleware.Req (middleware.C st) in
  let c := middleware.C st in
  ∃ st',
    middleware.WebDAVAuth st = Returned tt st' ∧
    middleware.Written (middleware.C st') = middleware.Written c ∧
    (middleware.Method r = "OPTIONS" ->
       middleware.admitted c (middleware.C st') ∧
       middleware.Trace st' = middleware.Trace st ∧
       middleware.Keys (middleware.C st') = middleware.Keys c) ∧
    (middleware.Method r ≠ "OPTIONS" ->
       (middleware.BasicAuth r = None ->
          middleware.rejectedBare 401 c (middleware.C st') ∧
          middleware.Trace st' = middleware.Trace st) ∧
       (∀ username password u,
          middleware.BasicAuth r = Some (username, password) ->
          (∀ e, middleware.GetUserByEmail username = (u, Some e) ->
             middleware.rejectedBare 401 c (middleware.C st')) ∧
          (middleware.GetUserByEmail username = (u, None) ->
             (middleware.CheckPassword u password).1 = false ->
             middleware.rejectedBare 401 c (middleware.C st')) ∧
          (middleware.GetUserByEmail username = (u, None) ->
             (middleware.CheckPassword u password).1 = true ->
             middleware.WebDAVEnabled (middleware.UserGroup u) = false ->
             middleware.rejectedBare 403 c (middleware.C st')) ∧
          (middleware.GetUserByEmail username = (u, None) ->
             (middleware.CheckPassword u password).1 = true ->
             middleware.WebDAVEnabled (middleware.UserGroup u) = true ->
             middleware.admitted c (middleware.C st') ∧
             middleware.Keys (middleware.C st') !! "user" = Some (middleware.VUser u)))) ∧
    (middleware.Nexted c = false ->
       middleware.Nexted (middleware.C st') = true ->
       middleware.Method r = "OPTIONS" ∨
       ∃ username password u,
         middleware.BasicAuth r = Some (username, password) ∧
         middleware.GetUserByEmail username = (u, None) ∧
         (middleware.CheckPassword u password).1 = true ∧
         middleware.WebDAVEnabled (middleware.UserGroup u) = true).
Proof.
  intros r c.
  unfold middleware.WebDAVAuth, middleware.modelGetUserByEmail,
    middleware.userCheckPassword, middleware.emit, middleware.SetHeader,
    middleware.SetStatus, middleware.Set_, middleware.Abort, middleware.Next,
    middleware.setC, middleware.admitted, middleware.rejectedBare.
  subst r c. run_monad.
  set (c := middleware.C st). set (r := middleware.Req c).
  destruct (String.eqb_spec (middleware.Method r) "OPTIONS") as [Hopt|Hopt]; run_monad.
  { eexists. split; [reflexivity|]. cbn. split_and!; try done. by left. }
  destruct (middleware.BasicAuth r) as [[username password]|] eqn:Hba; run_monad.
  2:{ eexists. split; [reflexivity|]. cbn. split_and!; try done.
      intros Hn Hn'. unfold c in *. congruence. }
  destruct (middleware.GetUserByEmail username) as [u err] eqn:Hu.
  destruct err as [e|]; run_monad.
  { eexists. split; [reflexivity|]. cbn. split_and!; try done.
    - intros _. split; [done|]. intros ? ? ? [= <- <-]. rewrite Hu.
      split_and!; intros; simplify_eq; done.
    - intros Hn Hn'. unfold c in *. congruence. }
  destruct (middleware.CheckPassword u password) as [ok perr] eqn:Hpw.
  destruct ok; run_monad.
  2:{ eexists. split; [reflexivity|]. cbn. split_and!; try done.
      - intros _. split; [done|]. intros ? ? ? [= <- <-]. rewrite Hu.
        split_and!; intros; simplify_eq; rewrite ?Hpw in *; simplify_eq/=; done.
      - intros Hn Hn'. unfold c in *. congruence. }
  destruct (middleware.WebDAVEnabled (middleware.UserGroup u)) eqn:Hdav; run_monad.
  2:{ eexists. split; [reflexivity|]. cbn. split_and!; try done.
      - intros _. split; [done|]. intros ? ? ? [= <- <-]. rewrite Hu.
        split_and!; intros; simplify_eq; rewrite ?Hpw in *; simplify_eq/=;
          try done; congruence.
      - intros Hn Hn'. unfold c in *. congruence. }
  eexists. split; [reflexivity|]. cbn. split_and!; try done.
  - intros _. split; [done|]. intros ? ? ? [= <- <-]. rewrite Hu.
    split_and!; intros; simplify_eq; rewrite ?Hpw in *; simplify_eq/=;
      try done; try congruence.
    split; [done|]. apply lookup_insert_eq.
  - intros _ _. right. exists username, password, u. rewrite Hpw. done.
Qed.

Lemma WebDAVAuth_gate_witness :
  ∃ st',
    @middleware.WebDAVAuth fixtures.twoUsers
       (fixtures.requestState "PROPFIND" (Some ("bob@example.com", "secret")))
      = Returned tt st' ∧
    middleware.Status (middleware.C st') = 403 ∧
    middleware.Written (middleware.C st') = None ∧
    middleware.Aborted (middleware.C st') = true ∧
    middleware.Nexted (middleware.C st') = false.
Proof.
  destruct (@WebDAVAuth_gate fixtures.twoUsers
              (fixtures.requestState "PROPFIND" (Some ("bob@example.com", "secret"))))
    as (st' & Hrun & _ & _ & Hother & _).
  assert (Hm : middleware.Method
                 (middleware.Req (middleware.C
                    (fixtures.requestState "PROPFIND" (Some ("bob@example.com", "secret")))))
               ≠ "OPTIONS") by discriminate.
  destruct (Hother Hm) as [_ Hcred].
  destruct (Hcred "bob@example.com" "secret" fixtures.bob eq_refl)
    as (_ & _ & Hforbidden & _).
  destruct (Hforbidden eq_refl eq_refl eq_refl) as (Hs & Hw & Ha & Hn).
  exists st'. split; [exact Hrun|]. split; [exact Hs|].
  split; [exact Hw|]. split; [exact Ha | exact Hn].
Defined.

(** * Properties of the hook pipeline *)

Lemma rangeHooks_allNil (ctx : filesystem.Context) (hooks : list filesystem.Hook)
    (s s' : filesystem.State) :
  filesystem.allNil ctx hooks s s' ->
  filesystem.rangeHooks hooks ctx s = Returned None s' ∧
  filesystem.invoked hooks ctx s = hooks.
Proof.
  induction 1 as [s | hook rest s s1 s2 Hhook _ [IHrun IHinv]]; [done|].
  cbn. unfold mbind, M_bind, bind. rewrite Hhook. split; [exact IHrun|].
  by rewrite IHinv.
Qed.

Lemma rangeHooks_first_error (ctx : filesystem.Context)
    (pre post : list filesystem.Hook) (hook : filesystem.Hook)
    (s s_k s' : filesystem.State) (e : filesystem.error) :
  filesystem.allNil ctx pre s s_k ->
  hook ctx s_k = Returned (Some e) s' ->
  filesystem.rangeHooks (pre ++ hook :: post) ctx s =
    Returned (Some e)
      (filesystem.setLog
         (filesystem.Log s' ++ [filesystem.LogWarning "Failed to execute hook：%s" e]) s') ∧
  filesystem.invoked (pre ++ hook :: post) ctx s = (pre ++ [hook])%list.
Proof.
  intros Hpre Hfail.
  induction Hpre as [s | h rest s s1 s2 Hh _ IH]; cbn.
  - unfold mbind, M_bind, bind. rewrite Hfail. done.
  - unfold mbind, M_bind, bind. rewrite Hh.
    destruct (IH Hfail) as [IHrun IHinv]. split; [exact IHrun|].
    by rewrite IHinv.
Qed.

(** Running only the hooks that [invoked] lists gives the outcome of the
    whole loop. *)
Lemma rangeHooks_invoked (ctx : filesystem.Context) (hooks : list filesystem.Hook)
    (s : filesystem.State) :
  filesystem.rangeHooks (filesystem.invoked hooks ctx s) ctx s =
  filesystem.rangeHooks hooks ctx s.
Proof.
  revert s. induction hooks as [|hook rest IH]; intros s; [done|].
  cbn. unfold mbind, M_bind, bind.
  destruct (hook ctx s) as [[e|] s1|msg]; [done | apply IH | done].
Qed.

(** [Use] registers a hook behind the ones already registered under the name. *)
Lemma Use_appends (fs : filesystem.FileSystem) (name : string) (hook : filesystem.Hook) :
  filesystem.Hooks (filesystem.Use fs name hook) !! name =
  Some (default [] (filesystem.Hooks fs !! name) ++ [hook])%list.
Proof.
  unfold filesystem.Use.
  destruct (filesystem.Hooks fs !! name) as [hooks|]; cbn; apply lookup_insert_eq.
Qed.

(** C2. [Trigger] runs the hooks registered under the name in registration
    order ([Use] registers at the end of the list): with no list under the
    name it returns nil, calls no hook and leaves the state as it is; when
    every hook returns nil it returns nil after calling all of them; when
    the hooks before the k-th return nil and the k-th returns an error,
    [Trigger] returns that error, in the state the k-th hook left (plus the
    logged warning), and the hooks it called are exactly the first k: the
    hooks behind the k-th are not called, whatever they are. *)
Theorem Trigger_fail_fast (fs : filesystem.FileSystem) (ctx : filesystem.Context)
    (name : string) (s : filesystem.State) :
  (filesystem.Hooks fs !! name = None ->
     filesystem.Trigger fs ctx name s = Returned None s ∧
     filesystem.TriggerInvoked fs ctx name s = []) ∧
  (∀ hooks, filesystem.Hooks fs !! name = Some hooks ->
     (∀ hook, filesystem.Hooks (filesystem.Use fs name hook) !! name
              = Some (hooks ++ [hook])%list) ∧
     (∀ s', filesystem.allNil ctx hooks s s' ->
        filesystem.Trigger fs ctx name s = Returned None s' ∧
        filesystem.TriggerInvoked fs ctx name s = hooks) ∧
     (∀ pre hook post s_k e s',
        hooks = (pre ++ hook :: post)%list ->
        filesystem.allNil ctx pre s s_k ->
        hook ctx s_k = Returned (Some e) s' ->
        filesystem.Trigger fs ctx name s =
          Returned (Some e)
            (filesystem.setLog
               (filesystem.Log s' ++
                  [filesystem.LogWarning "Failed to execute hook：%s" e]) s') ∧
        filesystem.TriggerInvoked fs ctx name s = (pre ++ [hook])%list)).
Proof.
  unfold filesystem.Trigger, filesystem.TriggerInvoked. split.
  - intros ->. done.
  - intros hooks Hhooks. rewrite Hhooks. split_and!.
    + intros hook. by rewrite Use_appends, Hhooks.
    + intros s' Hall. by apply rangeHooks_allNil.
    + intros pre hook post s_k e s' -> Hpre Hfail.
      by apply rangeHooks_first_error with (s_k := s_k).
Qed.

Lemma Trigger_fail_fast_witness :
  ∃ s',
    filesystem.Trigger fsfixtures.pipeline [] "BeforeUpload" fsfixtures.fullQuotaState
      = Returned (Some filesystem.ErrInsufficientCapacity) s' ∧
    filesystem.InfoSize (filesystem.Header s') = 50 ∧
    filesystem.TriggerInvoked fsfixtures.pipeline [] "BeforeUpload"
      fsfixtures.fullQuotaState
      = [filesystem.HookCancelContext;
         @filesystem.HookValidateCapacity fsfixtures.simpleFs].
Proof.
  pose (s := fsfixtures.fullQuotaState).
  destruct (Trigger_fail_fast fsfixtures.pipeline [] "BeforeUpload" s) as [_ Hsome].
  destruct (Hsome [filesystem.HookCancelContext;
                   @filesystem.HookValidateCapacity fsfixtures.simpleFs;
                   filesystem.HookClearFileHeaderSize] eq_refl)
    as (_ & _ & Hfail).
  destruct (Hfail [filesystem.HookCancelContext]
                  (@filesystem.HookValidateCapacity fsfixtures.simpleFs)
                  [filesystem.HookClearFileHeaderSize]
                  s filesystem.ErrInsufficientCapacity s eq_refl)
    as [Hrun Hinv].
  - eapply filesystem.allNil_cons; [|apply filesystem.allNil_nil]. reflexivity.
  - reflexivity.
  - eexists. split; [exact Hrun|]. split; [reflexivity | exact Hinv].
Defined.

(** * Properties of the hook units *)

(** C3. With an original file record on the context,
    [HookValidateCapacityDiff] returns nil whenever the new size is at most
    the original size, whatever the remaining capacity of the user; when the
    new size is larger it returns [ErrInsufficientCapacity] if the remaining
    capacity is strictly below the new size and nil otherwise (equality
    passes).  The state is left as it is. *)
Theorem HookValidateCapacityDiff_only_on_growth
    `{!filesystem.FsMethods} (ctx : filesystem.Context) (s : filesystem.State)
    (originFile : filesystem.File) :
  filesystem.Value ctx filesystem.FileModelCtx = Some (filesystem.CtxFile originFile) ->
  let newSize := filesystem.InfoSize (filesystem.Header s) in
  let remaining := filesystem.GetRemainingCapacity (filesystem.FsUser s) in
  (newSize ≤ filesystem.Size originFile ->
     filesystem.HookValidateCapacityDiff ctx s = Returned None s) ∧
  (filesystem.Size originFile < newSize ->
     (remaining < newSize ->
        filesystem.HookValidateCapacityDiff ctx s
          = Returned (Some filesystem.ErrInsufficientCapacity) s) ∧
     (newSize ≤ remaining ->
        filesystem.HookValidateCapacityDiff ctx s = Returned None s)).
Proof.
  intros Horigin newSize remaining. subst newSize remaining.
  unfold filesystem.HookValidateCapacityDiff, filesystem.HookValidateCapacity,
    filesystem.Info.
  rewrite Horigin. run_monad.
  split.
  - intros Hle.
    destruct (Z.gtb_spec (filesystem.InfoSize (filesystem.Header s))
                         (filesystem.Size originFile)); [exfalso; lia | done].
  - intros Hgt.
    destruct (Z.gtb_spec (filesystem.InfoSize (filesystem.Header s))
                         (filesystem.Size originFile)); [|exfalso; lia].
    split; intros Hcap;
      destruct (Z.ltb_spec (filesystem.GetRemainingCapacity (filesystem.FsUser s))
                           (filesystem.InfoSize (filesystem.Header s)));
      (done || (exfalso; lia)).
Qed.

Lemma HookValidateCapacityDiff_only_on_growth_witness :
  @filesystem.HookValidateCapacityDiff fsfixtures.simpleFs
     [(filesystem.FileModelCtx, filesystem.CtxFile (filesystem.mkFile 1 "a.txt" "uploads/a.txt" 50 None))]
     fsfixtures.fullQuotaState
  = Returned None fsfixtures.fullQuotaState ∧
  @filesystem.GetRemainingCapacity fsfixtures.simpleFs
     (filesystem.FsUser fsfixtures.fullQuotaState) = 0.
Proof.
  split; [|reflexivity].
  destruct (@HookValidateCapacityDiff_only_on_growth fsfixtures.simpleFs
           [(filesystem.FileModelCtx,
             filesystem.CtxFile (filesystem.mkFile 1 "a.txt" "uploads/a.txt" 50 None))]
           fsfixtures.fullQuotaState
           (filesystem.mkFile 1 "a.txt" "uploads/a.txt" 50 None) eq_refl)
    as [Hshrink _].
  apply Hshrink. cbn. lia.
Defined.

(** C10. [HookValidateCapacityDiff] returns (an error or nil) exactly when
    the context carries a [model.File] under the file-model key; without
    one its unchecked type assertion panics, where [HookResetPolicy] and
    [HookClearFileSize] return [ErrObjectNotExist] and leave the state as it
    is. *)
Theorem HookValidateCapacityDiff_panics_without_origin
    `{!filesystem.FsMethods} (ctx : filesystem.Context) (s : filesystem.State) :
  ((∃ f, filesystem.Value ctx filesystem.FileModelCtx = Some (filesystem.CtxFile f)) ↔
   (∃ err, filesystem.HookValidateCapacityDiff ctx s = Returned err s)) ∧
  ((∀ f, filesystem.Value ctx filesystem.FileModelCtx ≠ Some (filesystem.CtxFile f)) ->
     (∃ msg, filesystem.HookValidateCapacityDiff ctx s = Panicked msg) ∧
     filesystem.HookResetPolicy ctx s = Returned (Some filesystem.ErrObjectNotExist) s ∧
     filesystem.HookClearFileSize ctx s = Returned (Some filesystem.ErrObjectNotExist) s).
Proof.
  unfold filesystem.HookValidateCapacityDiff, filesystem.HookValidateCapacity,
    filesystem.HookResetPolicy, filesystem.HookClearFileSize, filesystem.Info.
  destruct (filesystem.Value ctx filesystem.FileModelCtx) as [[f|t|]|] eqn:Hv;
    run_monad.
  1: { split.
       - split; [|by eauto]. intros _.
         destruct (_ >? _); [destruct (_ <? _)|]; eauto.
       - intros Hno. by destruct (Hno f). }
  all: split;
    [ split; [intros [? [=]] | intros [? [=]]]
    | intros _; split_and!; [by eexists | done | done] ].
Qed.

Lemma HookValidateCapacityDiff_panics_without_origin_witness :
  (∃ msg, @filesystem.HookValidateCapacityDiff fsfixtures.simpleFs []
            fsfixtures.fullQuotaState = Panicked msg) ∧
  @filesystem.HookResetPolicy fsfixtures.simpleFs [] fsfixtures.fullQuotaState
    = Returned (Some filesystem.ErrObjectNotExist) fsfixtures.fullQuotaState.
Proof.
  destruct (@HookValidateCapacityDiff_panics_without_origin fsfixtures.simpleFs []
              fsfixtures.fullQuotaState) as [_ Hno].
  destruct Hno as (Hpanic & Hreset & _); [discriminate|].
  split; [exact Hpanic | exact Hreset].
Defined.

(** C5. [HookValidateFile] checks the size, then the name, then the
    extension of the header: the first check that fails decides the error
    ([ErrFileSizeTooBig], [ErrIllegalObjectName],
    [ErrFileExtensionNotAllowed], three different errors) and the hook
    returns in the state that check left, so the later checks do not run;
    it returns nil when the three checks pass, and only then. *)
Theorem HookValidateFile_first_violation
    `{!filesystem.FsMethods} (ctx : filesystem.Context) (s : filesystem.State) :
  let size := filesystem.InfoSize (filesystem.Header s) in
  let name := filesystem.FileName (filesystem.Header s) in
  (∀ s1, filesystem.ValidateFileSize ctx size s = Returned false s1 ->
     filesystem.HookValidateFile ctx s = Returned (Some filesystem.ErrFileSizeTooBig) s1) ∧
  (∀ s1 s2,
     filesystem.ValidateFileSize ctx size s = Returned true s1 ->
     filesystem.ValidateLegalName ctx name s1 = Returned false s2 ->
     filesystem.HookValidateFile ctx s = Returned (Some filesystem.ErrIllegalObjectName) s2) ∧
  (∀ s1 s2 s3,
     filesystem.ValidateFileSize ctx size s = Returned true s1 ->
     filesystem.ValidateLegalName ctx name s1 = Returned true s2 ->
     filesystem.ValidateExtension ctx name s2 = Returned false s3 ->
     filesystem.HookValidateFile ctx s
       = Returned (Some filesystem.ErrFileExtensionNotAllowed) s3) ∧
  (∀ s1 s2 s3,
     filesystem.ValidateFileSize ctx size s = Returned true s1 ->
     filesystem.ValidateLegalName ctx name s1 = Returned true s2 ->
     filesystem.ValidateExtension ctx name s2 = Returned true s3 ->
     filesystem.HookValidateFile ctx s = Returned None s3) ∧
  (∀ s', filesystem.HookValidateFile ctx s = Returned None s' ->
     ∃ s1 s2,
       filesystem.ValidateFileSize ctx size s = Returned true s1 ∧
       filesystem.ValidateLegalName ctx name s1 = Returned true s2 ∧
       filesystem.ValidateExtension ctx name s2 = Returned true s') ∧
  filesystem.ErrFileSizeTooBig ≠ filesystem.ErrIllegalObjectName ∧
  filesystem.ErrFileSizeTooBig ≠ filesystem.ErrFileExtensionNotAllowed ∧
  filesystem.ErrIllegalObjectName ≠ filesystem.ErrFileExtensionNotAllowed.
Proof.
  intros size name. subst size name.
  unfold filesystem.HookValidateFile, filesystem.Info. run_monad.
  split_and!; try discriminate.
  - intros s1 ->. done.
  - intros s1 s2 -> Hname. cbn. by rewrite Hname.
  - intros s1 s2 s3 -> Hname Hext. cbn. rewrite Hname. cbn. by rewrite Hext.
  - intros s1 s2 s3 -> Hname Hext. cbn. rewrite Hname. cbn. by rewrite Hext.
  - intros s'.
    destruct (filesystem.ValidateFileSize ctx _ s) as [[] s1|]; cbn; try done.
    destruct (filesystem.ValidateLegalName ctx _ s1) as [[] s2|] eqn:Hname; cbn;
      try done.
    destruct (filesystem.ValidateExtension ctx _ s2) as [[] s3|] eqn:Hext; cbn;
      try done.
    intros [= <-]. by exists s1, s2.
Qed.

Lemma HookValidateFile_first_violation_witness :
  @filesystem.HookValidateFile fsfixtures.simpleFs []
     (fsfixtures.state 0 (fsfixtures.header "" 5000 0 filesystem.MNil)
        fsfixtures.memDriver true)
  = Returned (Some filesystem.ErrFileSizeTooBig)
     (fsfixtures.state 0 (fsfixtures.header "" 5000 0 filesystem.MNil)
        fsfixtures.memDriver true).
Proof.
  destruct (@HookValidateFile_first_violation fsfixtures.simpleFs []
              (fsfixtures.state 0 (fsfixtures.header "" 5000 0 filesystem.MNil)
                 fsfixtures.memDriver true)) as [Hsize _].
  apply Hsize. reflexivity.
Defined.

(** C8. [GenericAfterUpload], once the destination directory is resolved:
    when a child of that name exists the hook returns
    [ErrFileUploadSessionExisted] if the existing record carries an upload
    session and [ErrFileExisted] if it does not, in the state the existence
    check left ([AddFile] is not called, no record is inserted); when the
    insertion fails, with whatever error, the hook returns
    [ErrInsertFileRecord]; when it succeeds the hook returns nil and the
    header's model is the created record. *)
Theorem GenericAfterUpload_outcomes
    `{!filesystem.FsMethods} (ctx : filesystem.Context) (s s1 : filesystem.State)
    (folder : option filesystem.Folder) :
  let info := filesystem.Header s in
  filesystem.CreateDirectory ctx (filesystem.VirtualPath info) s
    = Returned (folder, None) s1 ->
  (∀ existing s2,
     filesystem.IsChildFileExist folder (filesystem.FileName info) s1
       = Returned (true, Some existing) s2 ->
     (filesystem.UploadSessionID existing ≠ None ->
        filesystem.GenericAfterUpload ctx s
          = Returned (Some filesystem.ErrFileUploadSessionExisted) s2) ∧
     (filesystem.UploadSessionID existing = None ->
        filesystem.GenericAfterUpload ctx s
          = Returned (Some filesystem.ErrFileExisted) s2)) ∧
  (∀ absent s2 file e s3,
     filesystem.IsChildFileExist folder (filesystem.FileName info) s1
       = Returned (false, absent) s2 ->
     filesystem.AddFile ctx folder s2 = Returned (file, Some e) s3 ->
     filesystem.GenericAfterUpload ctx s
       = Returned (Some filesystem.ErrInsertFileRecord) s3) ∧
  (∀ absent s2 file s3,
     filesystem.IsChildFileExist folder (filesystem.FileName info) s1
       = Returned (false, absent) s2 ->
     filesystem.AddFile ctx folder s2 = Returned (file, None) s3 ->
     ∃ s',
       filesystem.GenericAfterUpload ctx s = Returned None s' ∧
       filesystem.Model (filesystem.Header s') = filesystem.MFilePtr file ∧
       filesystem.Files s' = filesystem.Files s3) ∧
  filesystem.ErrFileUploadSessionExisted ≠ filesystem.ErrFileExisted.
Proof.
  intros info Hdir. subst info.
  unfold filesystem.GenericAfterUpload, filesystem.Info, filesystem.SetModel.
  run_monad. rewrite Hdir. cbn.
  split_and!; try discriminate.
  - intros existing s2 ->. cbn. split.
    + destruct (filesystem.UploadSessionID existing); [done|]. intros Hn. by destruct Hn.
    + intros ->. done.
  - intros absent s2 file e s3 -> Hadd. cbn. by rewrite Hadd.
  - intros absent s2 file s3 -> Hadd. cbn. rewrite Hadd. cbn.
    eexists. split; [reflexivity|]. done.
Qed.

Lemma GenericAfterUpload_outcomes_witness :
  @filesystem.GenericAfterUpload fsfixtures.simpleFs []
     (fsfixtures.state 0 (fsfixtures.header "draft.txt" 10 0 filesystem.MNil)
        fsfixtures.memDriver true)
  = Returned (Some filesystem.ErrFileUploadSessionExisted)
     (fsfixtures.state 0 (fsfixtures.header "draft.txt" 10 0 filesystem.MNil)
        fsfixtures.memDriver true).
Proof.
  pose (s := fsfixtures.state 0 (fsfixtures.header "draft.txt" 10 0 filesystem.MNil)
               fsfixtures.memDriver true).
  destruct (@GenericAfterUpload_outcomes fsfixtures.simpleFs [] s s
              (Some (filesystem.mkFolder 1 "/")) eq_refl) as [Hexists _].
  assert (Hchild : @filesystem.IsChildFileExist fsfixtures.simpleFs
                     (Some (filesystem.mkFolder 1 "/")) "draft.txt" s
                   = Returned (true, Some fsfixtures.draft) s)
    by (vm_compute; reflexivity).
  destruct (Hexists fsfixtures.draft s Hchild) as [Hsession _].
  apply Hsession. discriminate.
Defined.

(** The size of a record after [alter (withSize v)]. *)
Lemma persisted_after_withSize (files : gmap Z filesystem.File) (id v : Z) :
  is_Some (files !! id) ->
  filesystem.Size <$> alter (filesystem.withSize v) id files !! id = Some v.
Proof.
  intros [f Hf]. rewrite lookup_alter. case_decide; [|done]. by rewrite Hf.
Qed.

(** C4. With the header's model pointing to a record that the store holds,
    and the store reachable: [HookChunkUploaded] returns nil and the
    persisted size becomes [AppendStart + Size] of the header, in [uint64]
    arithmetic (the integer sum when it fits in 64 bits), whatever the size
    persisted before, so running it again leaves the same size;
    [HookChunkUploadFailed] returns nil and the persisted size becomes
    [AppendStart]; and [HookChunkUploadFailed] after [HookChunkUploaded],
    with the same [AppendStart] and any chunk size in the header of the
    second call, leaves the persisted size equal to [AppendStart]. *)
Theorem chunk_hooks_persisted_size
    (ctx : filesystem.Context) (s : filesystem.State) (f : filesystem.File) :
  filesystem.Model (filesystem.Header s) = filesystem.MFilePtr (Some f) ->
  filesystem.StoreOnline s = true ->
  is_Some (filesystem.Files s !! filesystem.ID f) ->
  let appendStart := filesystem.AppendStart (filesystem.Header s) in
  let size := filesystem.InfoSize (filesystem.Header s) in
  let id := filesystem.ID f in
  ∃ s1,
    filesystem.HookChunkUploaded ctx s = Returned None s1 ∧
    filesystem.persistedSize s1 id = Some (filesystem.add64 appendStart size) ∧
    (0 ≤ appendStart -> 0 ≤ size -> appendStart + size < 2 ^ 64 ->
       filesystem.persistedSize s1 id = Some (appendStart + size)) ∧
    (∃ s1', filesystem.HookChunkUploaded ctx s1 = Returned None s1' ∧
            filesystem.persistedSize s1' id = Some (filesystem.add64 appendStart size)) ∧
    (∃ s0, filesystem.HookChunkUploadFailed ctx s = Returned None s0 ∧
           filesystem.persistedSize s0 id = Some appendStart) ∧
    (∀ size', ∃ s2,
        (filesystem.SetSize size' ;; filesystem.HookChunkUploadFailed ctx) s1
          = Returned None s2 ∧
        filesystem.persistedSize s2 id = Some appendStart).
Proof.
  intros Hmodel Honline Hrecord appendStart size id. subst appendStart size id.
  unfold filesystem.HookChunkUploaded, filesystem.HookChunkUploadFailed,
    filesystem.modelUpdateSize, filesystem.Info, filesystem.SetSize,
    filesystem.SetModel, filesystem.UpdateSize, filesystem.persistedSize.
  run_monad. rewrite Hmodel, Honline. cbn.
  eexists. split; [reflexivity|]. cbn. rewrite ?Honline. cbn.
  assert (Hrecord' : ∀ v, is_Some (alter (filesystem.withSize v) (filesystem.ID f)
                                     (filesystem.Files s) !! filesystem.ID f)).
  { intros v. destruct Hrecord as [r Hr]. rewrite lookup_alter.
    case_decide; [|done]. rewrite Hr. by eexists. }
  split_and!.
  - by apply persisted_after_withSize.
  - intros Ha Hs Hfit. rewrite persisted_after_withSize by done.
    unfold filesystem.add64. by rewrite Z.mod_small by lia.
  - eexists. split; [reflexivity|]. cbn. by apply persisted_after_withSize.
  - eexists. split; [reflexivity|]. cbn. by apply persisted_after_withSize.
  - intros size'. eexists. split; [reflexivity|]. cbn.
    by apply persisted_after_withSize.
Qed.

Lemma chunk_hooks_persisted_size_witness :
  ∃ s1,
    filesystem.HookChunkUploaded []
       (fsfixtures.state 0
          (fsfixtures.header "draft.txt" 30 20 (filesystem.MFilePtr (Some fsfixtures.draft)))
          fsfixtures.memDriver true)
      = Returned None s1 ∧
    filesystem.persistedSize s1 2 = Some 50.
Proof.
  destruct (chunk_hooks_persisted_size []
              (fsfixtures.state 0
                 (fsfixtures.header "draft.txt" 30 20
                    (filesystem.MFilePtr (Some fsfixtures.draft)))
                 fsfixtures.memDriver true)
              fsfixtures.draft eq_refl eq_refl)
    as (s1 & Hrun & Hsize & _).
  - exists fsfixtures.draft. reflexivity.
  - exists s1. split; [exact Hrun | exact Hsize].
Defined.

Lemma alter_withSize_twice (files : gmap Z filesystem.File) (id v : Z) :
  alter (filesystem.withSize v) id (alter (filesystem.withSize v) id files)
  = alter (filesystem.withSize v) id files.
Proof.
  rewrite alter_alter_eq. apply alter_ext. intros f _. by destruct f.
Qed.

Lemma alter_withSourceName_twice (files : gmap Z filesystem.File) (id : Z) (v : string) :
  alter (filesystem.withSourceName v) id (alter (filesystem.withSourceName v) id files)
  = alter (filesystem.withSourceName v) id files.
Proof.
  rewrite alter_alter_eq. apply alter_ext. intros f _. by destruct f.
Qed.

(** C9 (as amended).  [HookDeleteTempFile], [HookClearFileHeaderSize] and
    [HookCancelContext] return nil from every state: a failed delete of the
    driver is only logged, and without a cancellation function on the
    context [HookCancelContext] changes nothing.  [HookCleanFileContent]
    returns what the driver's [Put] returns.  [HookClearFileSize] and
    [HookUpdateSourceName] return [ErrObjectNotExist], and change nothing,
    when the context carries no original file record; with one they return
    what the store update returns: nil when the store is reachable, its
    error otherwise.  [HookClearFileHeaderSize], [HookCancelContext],
    [HookClearFileSize] and [HookUpdateSourceName] are idempotent;
    [HookCleanFileContent] is when the driver's [Put] is, and
    [HookDeleteTempFile], up to the log, when the driver's [Delete] is. *)
Theorem cleanup_hooks_outcomes (ctx : filesystem.Context) :
  (∀ s, ∃ s', filesystem.HookDeleteTempFile ctx s = Returned None s') ∧
  (∀ s, ∃ s', filesystem.HookClearFileHeaderSize ctx s = Returned None s' ∧
              filesystem.InfoSize (filesystem.Header s') = 0) ∧
  (∀ s, ∃ s', filesystem.HookCancelContext ctx s = Returned None s') ∧
  ((∀ t, filesystem.Value ctx filesystem.CancelFuncCtx ≠ Some (filesystem.CtxCancelFunc t)) ->
     ∀ s, filesystem.HookCancelContext ctx s = Returned None s) ∧
  (∀ s err o,
     filesystem.Put (filesystem.FsHandler s) ctx
       (filesystem.mkFileStream "" (filesystem.SavePath (filesystem.Header s)) 0
          filesystem.Overwrite)
       (filesystem.Objects s) = (err, o) ->
     filesystem.HookCleanFileContent ctx s = Returned err (filesystem.setObjects o s)) ∧
  ((∀ f, filesystem.Value ctx filesystem.FileModelCtx ≠ Some (filesystem.CtxFile f)) ->
     ∀ s, filesystem.HookClearFileSize ctx s
            = Returned (Some filesystem.ErrObjectNotExist) s ∧
          filesystem.HookUpdateSourceName ctx s
            = Returned (Some filesystem.ErrObjectNotExist) s) ∧
  (∀ f s, filesystem.Value ctx filesystem.FileModelCtx = Some (filesystem.CtxFile f) ->
     (filesystem.StoreOnline s = true ->
        ∃ s1 s2,
          filesystem.HookClearFileSize ctx s = Returned None s1 ∧
          filesystem.HookUpdateSourceName ctx s = Returned None s2) ∧
     (filesystem.StoreOnline s = false ->
        filesystem.HookClearFileSize ctx s
          = Returned (Some filesystem.ErrStoreUnavailable) s ∧
        filesystem.HookUpdateSourceName ctx s
          = Returned (Some filesystem.ErrStoreUnavailable) s)) ∧
  filesystem.idempotent (filesystem.HookClearFileHeaderSize ctx) ∧
  filesystem.idempotent (filesystem.HookCancelContext ctx) ∧
  filesystem.idempotent (filesystem.HookClearFileSize ctx) ∧
  filesystem.idempotent (filesystem.HookUpdateSourceName ctx) ∧
  (∀ s, filesystem.putIdempotent (filesystem.FsHandler s) ctx
          (filesystem.mkFileStream "" (filesystem.SavePath (filesystem.Header s)) 0
             filesystem.Overwrite) ->
        filesystem.idempotentAt (filesystem.HookCleanFileContent ctx) s) ∧
  (∀ s, filesystem.deleteIdempotent (filesystem.FsHandler s) ctx
          [filesystem.SavePath (filesystem.Header s)] ->
        filesystem.idempotentButLogAt (filesystem.HookDeleteTempFile ctx) s).
Proof.
  unfold filesystem.idempotent, filesystem.idempotentAt, filesystem.idempotentButLogAt,
    filesystem.putIdempotent, filesystem.deleteIdempotent, filesystem.sameButLog.
  unfold filesystem.HookDeleteTempFile, filesystem.HookClearFileHeaderSize,
    filesystem.HookCancelContext, filesystem.HookCleanFileContent,
    filesystem.HookClearFileSize, filesystem.HookUpdateSourceName,
    filesystem.handlerDelete, filesystem.handlerPut, filesystem.Info,
    filesystem.SetSize, filesystem.Warning, filesystem.UpdateSize,
    filesystem.UpdateSourceName.
  split_and!.
  - intros s. run_monad.
    destruct (filesystem.Delete _ _ _ _) as [[res [e|]] o]; run_monad; by eexists.
  - intros s. run_monad. by eexists.
  - intros s.
    destruct (filesystem.Value ctx filesystem.CancelFuncCtx) as [[f|t|]|];
      run_monad; by eexists.
  - intros Hno s.
    destruct (filesystem.Value ctx filesystem.CancelFuncCtx) as [[f|t|]|];
      run_monad; try done. by destruct (Hno t).
  - intros s err o HPut. run_monad. by rewrite HPut.
  - intros Hno s.
    destruct (filesystem.Value ctx filesystem.FileModelCtx) as [[f|t|]|];
      run_monad; try done. by destruct (Hno f).
  - intros f s ->. run_monad. split; intros ->; run_monad; [by eexists _, _ | done].
  - intros s r s1. run_monad. intros [= <- <-]. done.
  - intros s r s1.
    destruct (filesystem.Value ctx filesystem.CancelFuncCtx) as [[f|t|]|];
      run_monad; intros [= <- <-]; try done.
    f_equal. unfold filesystem.setCancelled. cbn. f_equal.
    by rewrite (assoc_L (∪)), union_idemp_L.
  - intros s r s1.
    destruct (filesystem.Value ctx filesystem.FileModelCtx) as [[f|t|]|];
      run_monad; try (intros [= <- <-]; done).
    destruct (filesystem.StoreOnline s) eqn:Honline; run_monad; intros [= <- <-];
      cbn; rewrite Honline; run_monad; [|done].
    f_equal. unfold filesystem.setFiles. cbn. f_equal.
    apply alter_withSize_twice.
  - intros s r s1.
    destruct (filesystem.Value ctx filesystem.FileModelCtx) as [[f|t|]|];
      run_monad; try (intros [= <- <-]; done).
    destruct (filesystem.StoreOnline s) eqn:Honline; run_monad; intros [= <- <-];
      cbn; rewrite Honline; run_monad; [|done].
    f_equal. unfold filesystem.setFiles. cbn. f_equal.
    apply alter_withSourceName_twice.
  - intros s Hput r s1. run_monad.
    destruct (filesystem.Put _ _ _ _) as [err o] eqn:HPut. intros [= <- <-]. cbn.
    by rewrite (Hput _ _ _ HPut).
  - intros s Hdel r s1. run_monad.
    destruct (filesystem.Delete _ _ _ _) as [[res err] o] eqn:HDel.
    destruct err as [e|]; run_monad; intros [= <- <-]; cbn;
      rewrite (Hdel _ _ _ HDel); run_monad; eexists; (split; [reflexivity|]);
      reflexivity.
Qed.

Lemma cleanup_hooks_outcomes_witness :
  filesystem.HookUpdateSourceName [] fsfixtures.fullQuotaState
    = Returned (Some filesystem.ErrObjectNotExist) fsfixtures.fullQuotaState ∧
  filesystem.idempotentAt (filesystem.HookCleanFileContent []) fsfixtures.fullQuotaState ∧
  filesystem.idempotentButLogAt (filesystem.HookDeleteTempFile []) fsfixtures.fullQuotaState.
Proof.
  destruct (cleanup_hooks_outcomes [])
    as (_ & _ & _ & _ & _ & Hnone & _ & _ & _ & _ & _ & Hput & Hdel).
  split_and!.
  - apply Hnone. discriminate.
  - apply Hput. intros o r o' [= <- <-]. cbn. by rewrite insert_insert_eq.
  - apply Hdel. intros o r o' [= <- <-]. cbn. by rewrite delete_delete_eq.
Defined.

(** C9, the claim as written fails: without an original file record on the
    context [HookClearFileSize] does not return nil, it returns
    [ErrObjectNotExist]. *)
Lemma HookClearFileSize_no_origin_counterexample :
  filesystem.Value [] filesystem.FileModelCtx = None ∧
  filesystem.HookClearFileSize [] fsfixtures.fullQuotaState
    = Returned (Some filesystem.ErrObjectNotExist) fsfixtures.fullQuotaState ∧
  ¬ ∃ s', filesystem.HookClearFileSize [] fsfixtures.fullQuotaState = Returned None s'.
Proof.
  split; [reflexivity|]. split; [reflexivity|].
  intros [s' Hnil]. discriminate Hnil.
Qed.

(** * Further properties of the middleware *)

(** Unfold the context methods and the calls that leave the package. *)
Ltac run_gin :=
  unfold middleware.Param, middleware.cacheGet, middleware.cacheDeletes,
    middleware.modelGetUserByID, middleware.modelGetUserByEmail,
    middleware.userCheckPassword, middleware.authCheckRequest,
    middleware.authCheckURI, middleware.Set_, middleware.SetHeader,
    middleware.SetStatus, middleware.JSON, middleware.Abort, middleware.Next,
    middleware.setC, middleware.emit;
  run_monad.

(** [uploadCallbackCheck] without a session: a missing (or empty) route
    parameter is answered with the parameter error before the cache is
    consulted, the state is left as it is; a key with no cache entry is
    answered with the parameter error after the one cache lookup, and
    neither the cache nor the context is changed, no user is looked up. *)
Theorem uploadCallbackCheck_rejects_without_session
    `{!middleware.ModelPkg} (st : middleware.State) :
  let key := middleware.lookupParam (middleware.Params (middleware.C st)) "key" in
  (key = "" ->
     ∃ resp, middleware.uploadCallbackCheck st = Returned (resp, None) st ∧
             serializer.Code resp = serializer.CodeParamErr) ∧
  (key ≠ "" -> middleware.Cache st !! ("callback_" +:+ key) = None ->
     ∃ resp st',
       middleware.uploadCallbackCheck st = Returned (resp, None) st' ∧
       serializer.Code resp = serializer.CodeParamErr ∧
       middleware.Cache st' = middleware.Cache st ∧
       middleware.C st' = middleware.C st ∧
       middleware.Trace st' =
         (middleware.Trace st ++ [middleware.EvCacheGet ("callback_" +:+ key)])%list).
Proof.
  intros key. subst key. unfold middleware.uploadCallbackCheck. run_gin.
  split.
  - intros ->. cbn. by eexists.
  - intros Hkey Hget. rewrite (eqb_false_of_ne _ _ Hkey). cbn. rewrite Hget. cbn.
    by eexists _, _.
Qed.

Lemma uploadCallbackCheck_rejects_without_session_witness :
  ∃ resp,
    @middleware.uploadCallbackCheck fixtures.twoUsers
       (fixtures.requestState "POST" None)
      = Returned (resp, None) (fixtures.requestState "POST" None) ∧
    serializer.Code resp = serializer.CodeParamErr.
Proof.
  destruct (@uploadCallbackCheck_rejects_without_session fixtures.twoUsers
              (fixtures.requestState "POST" None)) as [Hempty _].
  apply Hempty. reflexivity.
Defined.

(** Calling [uploadCallbackCheck] again with the key of a call that found
    the session: when the cache carried the deletion out, the second call is
    answered with the parameter error and no user, whatever the first call
    answered; when the cache refused the deletion, whose error the first
    call discards, the session is found again and the second call answers
    as the first did. *)
Theorem uploadCallbackCheck_replay
    `{!middleware.ModelPkg} (st : middleware.State) (key : string)
    (sess : serializer.UploadSession) :
  middleware.lookupParam (middleware.Params (middleware.C st)) "key" = key ->
  key ≠ "" ->
  middleware.Cache st !! ("callback_" +:+ key) = Some (middleware.CUploadSession sess) ->
  ∃ resp1 user1 st1,
    middleware.uploadCallbackCheck st = Returned (resp1, user1) st1 ∧
    (middleware.CacheDeleteError st = None ->
       ∃ resp2 st2,
         middleware.uploadCallbackCheck st1 = Returned (resp2, None) st2 ∧
         serializer.Code resp2 = serializer.CodeParamErr ∧
         middleware.Cache st2 = middleware.Cache st1) ∧
    (middleware.CacheDeleteError st ≠ None ->
       ∃ st2,
         middleware.uploadCallbackCheck st1 = Returned (resp1, user1) st2 ∧
         middleware.Cache st2 = middleware.Cache st).
Proof.
  intros Hparam Hkey Hget.
  unfold middleware.uploadCallbackCheck at 1. run_gin.
  rewrite Hparam, (eqb_false_of_ne _ _ Hkey). cbn. rewrite Hget. cbn.
  destruct (middleware.CacheDeleteError st) as [failure|] eqn:Hfail; cbn;
    destruct (middleware.GetUserByID (serializer.UID sess)) as [u err] eqn:Hu;
    (destruct err as [e|]; cbn;
     [|destruct (Z.eqb_spec (middleware.GetPolicyID u) (serializer.PolicyID sess)); cbn]);
    (eexists _, _, _; split; [reflexivity|]; split; [intros Hnone | intros Hsome];
     try discriminate; try (by destruct Hsome);
     unfold middleware.uploadCallbackCheck; run_gin;
     rewrite Hparam, (eqb_false_of_ne _ _ Hkey); cbn;
     rewrite ?lookup_delete_eq, ?Hget; cbn; rewrite ?Hfail; cbn; rewrite ?Hu; cbn;
     try (destruct (Z.eqb_spec (middleware.GetPolicyID u) (serializer.PolicyID sess));
          [|contradiction]); try (destruct (Z.eqb_spec (middleware.GetPolicyID u)
                                             (serializer.PolicyID sess)); [contradiction|]);
     cbn; by eexists; eauto).
Qed.

Lemma uploadCallbackCheck_replay_witness :
  (∃ resp1 user1 st1 resp2 st2,
     @middleware.uploadCallbackCheck fixtures.twoUsers (fixtures.callbackState 3)
       = Returned (resp1, user1) st1 ∧
     @middleware.uploadCallbackCheck fixtures.twoUsers st1 = Returned (resp2, None) st2 ∧
     serializer.Code resp2 = serializer.CodeParamErr) ∧
  (∃ resp1 user1 st1 st2,
     @middleware.uploadCallbackCheck fixtures.twoUsers fixtures.stuckCacheState
       = Returned (resp1, user1) st1 ∧
     @middleware.uploadCallbackCheck fixtures.twoUsers st1
       = Returned (resp1, user1) st2).
Proof.
  split.
  - destruct (@uploadCallbackCheck_replay fixtures.twoUsers
                (fixtures.callbackState 3) "k1" (serializer.mkUploadSession 7 3 "/"))
      as (resp1 & user1 & st1 & H1 & Hdeleted & _).
    + reflexivity.
    + discriminate.
    + reflexivity.
    + destruct (Hdeleted eq_refl) as (resp2 & st2 & H2 & H3 & _).
      by exists resp1, user1, st1, resp2, st2.
  - destruct (@uploadCallbackCheck_replay fixtures.twoUsers
                fixtures.stuckCacheState "k1" (serializer.mkUploadSession 7 3 "/"))
      as (resp1 & user1 & st1 & H1 & _ & Hstuck).
    + reflexivity.
    + discriminate.
    + reflexivity.
    + assert (Hrefused : middleware.CacheDeleteError fixtures.stuckCacheState ≠ None)
        by discriminate.
      destruct (Hstuck Hrefused) as (st2 & H2 & _).
      exists resp1, user1, st1, st2. split; [exact H1 | exact H2].
Defined.

(** What a caller of [uploadCallbackCheck] may rely on: the answer has code
    0 exactly when a user comes back, so the callers' [user.Policy] never
    dereferences nil; and a user comes back only when the cache held a
    session under the key, the user store knows the session's user, and that
    user's current policy is the session's.  The user and the session are
    then bound to the context. *)
Theorem uploadCallbackCheck_user_iff_success
    `{!middleware.ModelPkg} (st st' : middleware.State)
    (resp : serializer.Response) (user : option middleware.User) :
  middleware.uploadCallbackCheck st = Returned (resp, user) st' ->
  (serializer.Code resp = 0 ↔ user ≠ None) ∧
  (∀ u, user = Some u ->
     ∃ sess,
       middleware.Cache st !!
         ("callback_" +:+ middleware.lookupParam (middleware.Params (middleware.C st)) "key")
         = Some (middleware.CUploadSession sess) ∧
       middleware.GetUserByID (serializer.UID sess) = (u, None) ∧
       middleware.GetPolicyID u = serializer.PolicyID sess ∧
       middleware.Keys (middleware.C st') !! "user" = Some (middleware.VUser u) ∧
       middleware.Keys (middleware.C st') !! "callbackSession"
         = Some (middleware.VUploadSession sess)).
Proof.
  unfold middleware.uploadCallbackCheck. run_gin.
  destruct (String.eqb _ ""); cbn.
  { intros [= <- <- <-]. split; [split; [discriminate | congruence] | discriminate]. }
  destruct (middleware.Cache st !! _) as [[sess|tag]|] eqn:Hget; cbn.
  3: { intros [= <- <- <-]. split; [split; [discriminate | congruence] | discriminate]. }
  2: { discriminate. }
  destruct (middleware.GetUserByID (serializer.UID sess)) as [u err] eqn:Hu.
  destruct (middleware.CacheDeleteError st) as [failure|]; cbn;
    (destruct err as [e|]; cbn;
     [ intros [= <- <- <-];
       split; [split; [discriminate | congruence] | discriminate] |]);
    (destruct (Z.eqb_spec (middleware.GetPolicyID u) (serializer.PolicyID sess)); cbn;
     [| intros [= <- <- <-];
        split; [split; [discriminate | congruence] | discriminate] ]);
    (intros [= <- <- <-]; split; [split; [discriminate | reflexivity]|];
     intros u' [= <-]; exists sess; split_and!; try done;
     [ apply lookup_insert_eq
     | cbn; rewrite lookup_insert_ne by discriminate; apply lookup_insert_eq ]).
Qed.

Lemma uploadCallbackCheck_user_iff_success_witness :
  ∃ resp st',
    @middleware.uploadCallbackCheck fixtures.twoUsers (fixtures.callbackState 3)
      = Returned (resp, Some fixtures.alice) st' ∧
    serializer.Code resp = 0 ∧
    middleware.Keys (middleware.C st') !! "user" = Some (middleware.VUser fixtures.alice).
Proof.
  eexists _, _. split; [reflexivity|].
  destruct (@uploadCallbackCheck_user_iff_success fixtures.twoUsers
              (fixtures.callbackState 3) _ _ _ eq_refl) as [Hcode Huser].
  split.
  - apply Hcode. discriminate.
  - destruct (Huser fixtures.alice eq_refl) as (sess & _ & _ & _ & Hkey & _).
    exact Hkey.
Defined.

(** [uploadCallbackCheck] answers through its results only: whenever it
    returns, the request, the route parameters, the status, the body and the
    position in the chain are as before, and every cache entry other than
    the one of the callback key is as before. *)
Theorem uploadCallbackCheck_frame
    `{!middleware.ModelPkg} (st st' : middleware.State)
    (resp : serializer.Response) (user : option middleware.User) :
  middleware.uploadCallbackCheck st = Returned (resp, user) st' ->
  let c := middleware.C st in
  let c' := middleware.C st' in
  middleware.Req c' = middleware.Req c ∧
  middleware.Params c' = middleware.Params c ∧
  middleware.Header c' = middleware.Header c ∧
  middleware.Status c' = middleware.Status c ∧
  middleware.Written c' = middleware.Written c ∧
  middleware.Aborted c' = middleware.Aborted c ∧
  middleware.Nexted c' = middleware.Nexted c ∧
  (∀ k, k ≠ "callback_" +:+ middleware.lookupParam (middleware.Params c) "key" ->
        middleware.Cache st' !! k = middleware.Cache st !! k).
Proof.
  unfold middleware.uploadCallbackCheck. run_gin.
  destruct (String.eqb _ ""); cbn; [by intros [= <- <- <-]|].
  destruct (middleware.Cache st !! _) as [[sess|tag]|] eqn:Hget; cbn;
    [| discriminate | by intros [= <- <- <-]].
  destruct (middleware.GetUserByID (serializer.UID sess)) as [u err] eqn:Hu.
  destruct (middleware.CacheDeleteError st) as [failure|]; cbn;
    (destruct err as [e|]; cbn;
     [|destruct (Z.eqb_spec (middleware.GetPolicyID u) (serializer.PolicyID sess)); cbn]);
    intros [= <- <- <-]; cbn; split_and!; try done;
    intros k Hk; by rewrite lookup_delete_ne.
Qed.

Lemma uploadCallbackCheck_frame_witness :
  ∃ resp user st',
    @middleware.uploadCallbackCheck fixtures.twoUsers (fixtures.callbackState 4)
      = Returned (resp, user) st' ∧
    middleware.Aborted (middleware.C st') = false ∧
    middleware.Written (middleware.C st') = None.
Proof.
  eexists _, _, _. split; [reflexivity|].
  destruct (@uploadCallbackCheck_frame fixtures.twoUsers
              (fixtures.callbackState 4) _ _ _ eq_refl)
    as (_ & _ & _ & _ & Hw & Ha & _).
  split; [exact Ha | exact Hw].
Defined.

(** The type assertion on the cached value is unchecked: a value of another
    type under the callback key makes [uploadCallbackCheck] panic. *)
Theorem uploadCallbackCheck_panics_on_foreign_value
    `{!middleware.ModelPkg} (st : middleware.State) (tag : string) :
  let key := middleware.lookupParam (middleware.Params (middleware.C st)) "key" in
  key ≠ "" ->
  middleware.Cache st !! ("callback_" +:+ key) = Some (middleware.COther tag) ->
  ∃ msg, middleware.uploadCallbackCheck st = Panicked msg.
Proof.
  intros key Hkey Hget. subst key.
  unfold middleware.uploadCallbackCheck. run_gin.
  rewrite (eqb_false_of_ne _ _ Hkey). cbn. rewrite Hget. cbn. by eexists.
Qed.

Lemma uploadCallbackCheck_panics_on_foreign_value_witness :
  ∃ msg, @middleware.uploadCallbackCheck fixtures.twoUsers fixtures.foreignCacheState
         = Panicked msg.
Proof.
  apply (@uploadCallbackCheck_panics_on_foreign_value fixtures.twoUsers
           fixtures.foreignCacheState "string").
  - discriminate.
  - reflexivity.
Defined.

(** [RemoteCallbackAuth] with a session in the cache: it returns (no nil
    dereference); the deletion of the session is asked of the cache before
    the signature is looked at, so when the cache carries it out the session
    is gone afterwards in every case, also when only the request signature
    is wrong, and when the cache refuses it the session stays; the request
    is handed on when the user is found, the policy is unchanged and the
    signature under the policy's secret is valid, and otherwise answered
    with a JSON error envelope of non-zero code and the chain cut. *)
Theorem RemoteCallbackAuth_consumes_session
    `{!middleware.ModelPkg} (check : string -> middleware.Request -> option middleware.error)
    (st : middleware.State) (key : string) (sess : serializer.UploadSession) :
  middleware.lookupParam (middleware.Params (middleware.C st)) "key" = key ->
  key ≠ "" ->
  middleware.Cache st !! ("callback_" +:+ key) = Some (middleware.CUploadSession sess) ->
  let valid :=
    ∃ u, middleware.GetUserByID (serializer.UID sess) = (u, None) ∧
         middleware.GetPolicyID u = serializer.PolicyID sess ∧
         check (middleware.SecretKey (middleware.UserPolicy u))
               (middleware.Req (middleware.C st)) = None in
  ∃ st',
    middleware.RemoteCallbackAuth check st = Returned tt st' ∧
    (middleware.CacheDeleteError st = None ->
       middleware.Cache st' !! ("callback_" +:+ key) = None) ∧
    (middleware.CacheDeleteError st ≠ None ->
       middleware.Cache st' = middleware.Cache st) ∧
    (valid -> middleware.admitted (middleware.C st) (middleware.C st')) ∧
    (¬ valid ->
       ∃ resp, middleware.rejectedJSON resp (middleware.C st) (middleware.C st') ∧
               serializer.Code resp ≠ 0).
Proof.
  intros Hparam Hkey Hget valid. subst valid.
  unfold middleware.RemoteCallbackAuth, middleware.uploadCallbackCheck,
    middleware.admitted, middleware.rejectedJSON. run_gin.
  rewrite Hparam, (eqb_false_of_ne _ _ Hkey). cbn. rewrite Hget. cbn.
  destruct (middleware.GetUserByID (serializer.UID sess)) as [u err] eqn:Hu.
  assert (Hgone : ∀ m : gmap string middleware.CacheValue,
            delete ("callback_" +:+ key) m !! ("callback_" +:+ key) = None)
    by (intros m; apply lookup_delete_eq).
  destruct (middleware.CacheDeleteError st) as [failure|]; cbn;
    (destruct err as [e|]; cbn;
     [ eexists; split; [reflexivity|]; cbn; split_and!; try done;
       [ intros (u' & [=] & _) | intros _; eexists; split; [done|]; discriminate ] |]);
    (destruct (Z.eqb_spec (middleware.GetPolicyID u) (serializer.PolicyID sess))
       as [Hp|Hp]; cbn;
     [| eexists; split; [reflexivity|]; cbn; split_and!; try done;
        [ intros (u' & [= <-] & Hp' & _); contradiction
        | intros _; eexists; split; [done|]; discriminate ] ]);
    (destruct (check _ _) as [e|] eqn:Hsig; cbn;
     eexists; (split; [reflexivity|]); cbn; split_and!; try done;
     [ intros (u' & [= <-] & _ & Hsig'); congruence
     | intros _; eexists; split; [done|]; discriminate
     | intros Hinvalid; destruct Hinvalid; by exists u ]).
Qed.

Lemma RemoteCallbackAuth_consumes_session_witness :
  ∃ st',
    @middleware.RemoteCallbackAuth fixtures.twoUsers fixtures.secretSk
       fixtures.unsignedCallbackState = Returned tt st' ∧
    middleware.Cache st' !! "callback_k1" = None ∧
    middleware.Aborted (middleware.C st') = true.
Proof.
  destruct (@RemoteCallbackAuth_consumes_session fixtures.twoUsers fixtures.secretSk
              fixtures.unsignedCallbackState "k1" (serializer.mkUploadSession 7 3 "/"))
    as (st' & Hrun & Hgone & _ & _ & Hrejected).
  - reflexivity.
  - discriminate.
  - reflexivity.
  - exists st'. split; [exact Hrun|]. split; [exact (Hgone eq_refl)|].
    destruct Hrejected as (resp & (_ & _ & Habort & _) & _); [|exact Habort].
    intros (u & Hu & _ & Hsig). injection Hu as <-. discriminate Hsig.
Defined.

(** [RemoteCallbackAuth] without a session (no route parameter, or no
    cache entry under it): the parameter error is written as JSON under
    status 200, the chain is cut, and the cache is left as it is. *)
Theorem RemoteCallbackAuth_rejects_without_session
    `{!middleware.ModelPkg} (check : string -> middleware.Request -> option middleware.error)
    (st : middleware.State) :
  let key := middleware.lookupParam (middleware.Params (middleware.C st)) "key" in
  key = "" ∨ middleware.Cache st !! ("callback_" +:+ key) = None ->
  ∃ resp st',
    middleware.RemoteCallbackAuth check st = Returned tt st' ∧
    middleware.rejectedJSON resp (middleware.C st) (middleware.C st') ∧
    serializer.Code resp = serializer.CodeParamErr ∧
    middleware.Cache st' = middleware.Cache st.
Proof.
  intros key Hno. subst key.
  unfold middleware.RemoteCallbackAuth, middleware.uploadCallbackCheck,
    middleware.rejectedJSON. run_gin.
  destruct (String.eqb_spec
              (middleware.lookupParam (middleware.Params (middleware.C st)) "key") "")
    as [Hk|Hk]; cbn.
  - by eexists _, _.
  - destruct Hno as [Hno|Hno]; [contradiction|]. rewrite Hno. cbn. by eexists _, _.
Qed.

Lemma RemoteCallbackAuth_rejects_without_session_witness :
  ∃ resp st',
    @middleware.RemoteCallbackAuth fixtures.twoUsers fixtures.secretSk
       (fixtures.requestState "POST" None) = Returned tt st' ∧
    middleware.Written (middleware.C st') = Some (middleware.JSONResponse resp) ∧
    serializer.Code resp = serializer.CodeParamErr.
Proof.
  destruct (@RemoteCallbackAuth_rejects_without_session fixtures.twoUsers
              fixtures.secretSk (fixtures.requestState "POST" None))
    as (resp & st' & Hrun & (_ & Hw & _) & Hcode & _).
  - left. reflexivity.
  - by exists resp, st'.
Defined.

(** [CurrentUser] never rejects: it always hands the request on, writing
    nothing and leaving the cache alone.  It binds the user to the context
    exactly when the session carries a user id that the user store
    resolves; with no id in the session the user store is not called, and a
    failed lookup leaves the keys of the context as they are. *)
Theorem CurrentUser_best_effort
    `{!middleware.ModelPkg} (session : gmap string Z) (st : middleware.State) :
  ∃ st',
    middleware.CurrentUser session st = Returned tt st' ∧
    middleware.admitted (middleware.C st) (middleware.C st') ∧
    middleware.Cache st' = middleware.Cache st ∧
    (session !! "user_id" = None ->
       middleware.Keys (middleware.C st') = middleware.Keys (middleware.C st) ∧
       middleware.Trace st' = middleware.Trace st) ∧
    (∀ uid u e, session !! "user_id" = Some uid ->
       middleware.GetUserByID uid = (u, Some e) ->
       middleware.Keys (middleware.C st') = middleware.Keys (middleware.C st)) ∧
    (∀ uid u, session !! "user_id" = Some uid ->
       middleware.GetUserByID uid = (u, None) ->
       middleware.Keys (middleware.C st')
         = <["user" := middleware.VUser u]> (middleware.Keys (middleware.C st))).
Proof.
  unfold middleware.CurrentUser, middleware.admitted. run_gin.
  destruct (session !! "user_id") as [uid|]; run_monad.
  2: { eexists. split; [reflexivity|]. cbn. split_and!; try done. }
  destruct (middleware.GetUserByID uid) as [u err] eqn:Hu.
  destruct err as [e|]; run_monad;
    (eexists; split; [reflexivity|]; cbn; split_and!; try done;
     intros ? ? ?; try intros ?; intros; simplify_eq; congruence).
Qed.

(** [AuthRequired] hands the request on exactly when the context holds a
    user under ["user"]; otherwise (no value, or a value of another type) it
    writes the check-login envelope as JSON under status 200 and cuts the
    chain.  It calls nothing outside the package. *)
Theorem AuthRequired_gate (st : middleware.State) :
  ∃ st',
    middleware.AuthRequired st = Returned tt st' ∧
    middleware.Trace st' = middleware.Trace st ∧
    middleware.Cache st' = middleware.Cache st ∧
    middleware.Keys (middleware.C st') = middleware.Keys (middleware.C st) ∧
    ((∃ u, middleware.Keys (middleware.C st) !! "user" = Some (middleware.VUser u)) ->
       middleware.admitted (middleware.C st) (middleware.C st')) ∧
    ((∀ u, middleware.Keys (middleware.C st) !! "user" ≠ Some (middleware.VUser u)) ->
       middleware.rejectedJSON serializer.CheckLogin (middleware.C st) (middleware.C st') ∧
       serializer.Code serializer.CheckLogin = serializer.CodeCheckLogin).
Proof.
  unfold middleware.AuthRequired, middleware.admitted, middleware.rejectedJSON. run_gin.
  destruct (middleware.Keys (middleware.C st) !! "user") as [[u|s]|]; run_monad;
    (eexists; split; [reflexivity|]; cbn; split_and!; try done).
  - intros Hno. by destruct (Hno u).
  - intros [u [=]].
  - intros [u [=]].
Qed.

Lemma AuthRequired_gate_witness :
  ∃ st',
    middleware.AuthRequired (fixtures.requestState "GET" None) = Returned tt st' ∧
    middleware.Aborted (middleware.C st') = true ∧
    middleware.Written (middleware.C st')
      = Some (middleware.JSONResponse serializer.CheckLogin).
Proof.
  destruct (AuthRequired_gate (fixtures.requestState "GET" None))
    as (st' & Hrun & _ & _ & _ & _ & Hreject).
  destruct Hreject as [(_ & Hw & Ha & _) _]; [discriminate|].
  by exists st'.
Defined.

(** [CurrentUser] followed by [AuthRequired], on a request whose context
    holds no user yet: the request passes the pair exactly when the session
    carries a user id that the user store resolves; otherwise the chain is
    cut with the check-login envelope. *)
Theorem CurrentUser_then_AuthRequired
    `{!middleware.ModelPkg} (session : gmap string Z) (st : middleware.State) :
  middleware.Keys (middleware.C st) !! "user" = None ->
  middleware.Aborted (middleware.C st) = false ->
  let resolved :=
    ∃ uid u, session !! "user_id" = Some uid ∧ middleware.GetUserByID uid = (u, None) in
  ∃ st',
    (middleware.CurrentUser session ;; middleware.AuthRequired) st = Returned tt st' ∧
    (resolved ->
       middleware.Aborted (middleware.C st') = false ∧
       middleware.Written (middleware.C st') = middleware.Written (middleware.C st)) ∧
    (¬ resolved ->
       middleware.Aborted (middleware.C st') = true ∧
       middleware.Written (middleware.C st')
         = Some (middleware.JSONResponse serializer.CheckLogin)).
Proof.
  intros Hnone Hlive resolved. subst resolved.
  unfold middleware.CurrentUser, middleware.AuthRequired. run_gin.
  destruct (session !! "user_id") as [uid|]; run_monad.
  2: { rewrite Hnone. run_monad. eexists. split; [reflexivity|]. cbn. split.
       - intros (? & ? & [=] & _).
       - done. }
  destruct (middleware.GetUserByID uid) as [u err] eqn:Hu.
  destruct err as [e|]; run_monad.
  - rewrite Hnone. run_monad. eexists. split; [reflexivity|]. cbn. split.
    + intros (uid' & u' & [= <-] & Hu'). congruence.
    + done.
  - rewrite lookup_insert_eq. run_monad. eexists. split; [reflexivity|]. cbn. split.
    + done.
    + intros Hno. destruct Hno. by exists uid, u.
Qed.

Lemma CurrentUser_then_AuthRequired_witness :
  (∃ st',
     (@middleware.CurrentUser fixtures.twoUsers fixtures.aliceSession ;;
      middleware.AuthRequired) (fixtures.requestState "GET" None) = Returned tt st' ∧
     middleware.Aborted (middleware.C st') = false) ∧
  (∃ st',
     (@middleware.CurrentUser fixtures.twoUsers fixtures.staleSession ;;
      middleware.AuthRequired) (fixtures.requestState "GET" None) = Returned tt st' ∧
     middleware.Aborted (middleware.C st') = true).
Proof.
  split.
  - destruct (@CurrentUser_then_AuthRequired fixtures.twoUsers fixtures.aliceSession
                (fixtures.requestState "GET" None) eq_refl eq_refl)
      as (st' & Hrun & Hpass & _).
    exists st'. split; [exact Hrun|]. apply Hpass.
    exists 7, fixtures.alice. split; reflexivity.
  - destruct (@CurrentUser_then_AuthRequired fixtures.twoUsers fixtures.staleSession
                (fixtures.requestState "GET" None) eq_refl eq_refl)
      as (st' & Hrun & _ & Hcut).
    exists st'. split; [exact Hrun|]. apply Hcut.
    intros (uid & u & Hs & Hu).
    assert (uid = 99) as -> by (vm_compute in Hs; congruence).
    discriminate Hu.
Defined.

Lemma CurrentUser_best_effort_witness :
  ∃ st',
    @middleware.CurrentUser fixtures.twoUsers fixtures.aliceSession
       (fixtures.requestState "GET" None) = Returned tt st' ∧
    middleware.Keys (middleware.C st') !! "user" = Some (middleware.VUser fixtures.alice) ∧
    middleware.Nexted (middleware.C st') = true.
Proof.
  destruct (@CurrentUser_best_effort fixtures.twoUsers fixtures.aliceSession
              (fixtures.requestState "GET" None))
    as (st' & Hrun & (Hnext & _) & _ & _ & _ & Hbound).
  exists st'. split; [exact Hrun|]. split; [|exact Hnext].
  rewrite (Hbound 7 fixtures.alice eq_refl eq_refl). apply lookup_insert_eq.
Defined.

(** * Further properties of the hook registry *)

Lemma Use_other_name (fs : filesystem.FileSystem) (name name' : string)
    (hook : filesystem.Hook) :
  name' ≠ name ->
  filesystem.Hooks (filesystem.Use fs name hook) !! name' = filesystem.Hooks fs !! name'.
Proof.
  intros Hne. unfold filesystem.Use.
  destruct (filesystem.Hooks fs !! name); cbn; by rewrite lookup_insert_ne.
Qed.

(** Registering the hooks of a non-empty list one by one with [Use] puts
    them, in that order, behind the hooks already registered under the
    name, and leaves the lists of all other names as they are. *)
Theorem Use_registers_in_order (fs : filesystem.FileSystem) (name : string)
    (hooks : list filesystem.Hook) :
  hooks ≠ [] ->
  let fs' := foldl (fun fs hook => filesystem.Use fs name hook) fs hooks in
  filesystem.Hooks fs' !! name
    = Some (default [] (filesystem.Hooks fs !! name) ++ hooks)%list ∧
  (∀ name', name' ≠ name ->
     filesystem.Hooks fs' !! name' = filesystem.Hooks fs !! name').
Proof.
  intros Hne fs'. subst fs'. revert fs Hne.
  induction hooks as [|hook rest IH]; intros fs Hne; [done|]. cbn.
  destruct rest as [|hook' rest'].
  - cbn. split; [apply Use_appends|]. intros name' Hn. by apply Use_other_name.
  - destruct (IH (filesystem.Use fs name hook)) as [IHname IHother]; [done|].
    split.
    + rewrite IHname, Use_appends. cbn. by rewrite <- app_assoc.
    + intros name' Hn. rewrite IHother by done. by apply Use_other_name.
Qed.

Lemma Use_registers_in_order_witness :
  filesystem.Hooks fsfixtures.pipeline !! "BeforeUpload"
  = Some [filesystem.HookCancelContext;
          @filesystem.HookValidateCapacity fsfixtures.simpleFs;
          filesystem.HookClearFileHeaderSize].
Proof.
  destruct (Use_registers_in_order (filesystem.mkFileSystem ∅) "BeforeUpload"
              [filesystem.HookCancelContext;
               @filesystem.HookValidateCapacity fsfixtures.simpleFs;
               filesystem.HookClearFileHeaderSize]) as [Hname _].
  - discriminate.
  - exact Hname.
Defined.

(** [Use] does not deduplicate: a hook registered twice under a name is
    called twice by [Trigger], the second time from the state the first
    call left. *)
Theorem Use_twice_runs_twice (fs : filesystem.FileSystem) (ctx : filesystem.Context)
    (name : string) (hook : filesystem.Hook) (s s1 s2 : filesystem.State) :
  filesystem.Hooks fs !! name = None ->
  hook ctx s = Returned None s1 ->
  hook ctx s1 = Returned None s2 ->
  let fs' := filesystem.Use (filesystem.Use fs name hook) name hook in
  filesystem.Trigger fs' ctx name s = Returned None s2 ∧
  filesystem.TriggerInvoked fs' ctx name s = [hook; hook].
Proof.
  intros Hnone H1 H2 fs'. subst fs'.
  unfold filesystem.Trigger, filesystem.TriggerInvoked.
  rewrite Use_appends, Use_appends, Hnone.
  apply (rangeHooks_allNil ctx [hook; hook]).
  eapply filesystem.allNil_cons; [exact H1|].
  eapply filesystem.allNil_cons; [exact H2|]. apply filesystem.allNil_nil.
Qed.

Lemma Use_twice_runs_twice_witness :
  ∃ s2,
    filesystem.Trigger
      (filesystem.Use (filesystem.Use (filesystem.mkFileSystem ∅) "Cleanup"
                         filesystem.HookClearFileHeaderSize)
                      "Cleanup" filesystem.HookClearFileHeaderSize)
      [] "Cleanup" fsfixtures.fullQuotaState = Returned None s2 ∧
    filesystem.InfoSize (filesystem.Header s2) = 0.
Proof.
  edestruct (Use_twice_runs_twice (filesystem.mkFileSystem ∅) [] "Cleanup"
               filesystem.HookClearFileHeaderSize fsfixtures.fullQuotaState)
    as [Hrun _]; [reflexivity | reflexivity | reflexivity |].
  eexists. split; [exact Hrun | reflexivity].
Defined.

(** [CleanHooks] with a non-empty name removes the list of that name only:
    [Trigger] on it then returns nil without touching the state, the lists
    of the other names stay.  With the empty name it removes every list, so
    [Trigger] on any name returns nil without touching the state.  A hook
    registered afterwards is alone under its name. *)
Theorem CleanHooks_clears (fs : filesystem.FileSystem) (ctx : filesystem.Context)
    (name : string) (s : filesystem.State) :
  (name ≠ "" ->
     filesystem.Trigger (filesystem.CleanHooks fs name) ctx name s = Returned None s ∧
     (∀ name', name' ≠ name ->
        filesystem.Hooks (filesystem.CleanHooks fs name) !! name'
          = filesystem.Hooks fs !! name')) ∧
  (∀ name', filesystem.Trigger (filesystem.CleanHooks fs "") ctx name' s
            = Returned None s) ∧
  (∀ hook, filesystem.Hooks (filesystem.Use (filesystem.CleanHooks fs name) name hook)
             !! name = Some [hook]).
Proof.
  unfold filesystem.Trigger, filesystem.CleanHooks. split_and!.
  - intros Hne. rewrite (eqb_false_of_ne _ _ Hne). cbn. split.
    + by rewrite lookup_delete_eq.
    + intros name' Hn. by rewrite lookup_delete_ne.
  - intros name'. cbn. by rewrite lookup_empty.
  - intros hook. rewrite Use_appends.
    destruct (String.eqb name ""); cbn; by rewrite ?lookup_empty, ?lookup_delete_eq.
Qed.

Lemma CleanHooks_clears_witness :
  filesystem.Trigger (filesystem.CleanHooks fsfixtures.pipeline "BeforeUpload") []
    "BeforeUpload" fsfixtures.fullQuotaState
  = Returned None fsfixtures.fullQuotaState.
Proof.
  destruct (CleanHooks_clears fsfixtures.pipeline [] "BeforeUpload"
              fsfixtures.fullQuotaState) as [Hnamed _].
  apply Hnamed. discriminate.
Defined.

(** A panic of a hook is a panic of [Trigger]: when the hooks before it
    return nil and the k-th panics, [Trigger] panics with the same message,
    no warning is logged by it and the hooks behind are not called. *)
Theorem Trigger_panic_propagates (fs : filesystem.FileSystem) (ctx : filesystem.Context)
    (name : string) (pre post : list filesystem.Hook) (hook : filesystem.Hook)
    (s s_k : filesystem.State) (msg : string) :
  filesystem.Hooks fs !! name = Some (pre ++ hook :: post)%list ->
  filesystem.allNil ctx pre s s_k ->
  hook ctx s_k = Panicked msg ->
  filesystem.Trigger fs ctx name s = Panicked msg ∧
  filesystem.TriggerInvoked fs ctx name s = (pre ++ [hook])%list.
Proof.
  intros Hhooks Hpre Hpanic.
  unfold filesystem.Trigger, filesystem.TriggerInvoked. rewrite Hhooks.
  clear Hhooks.
  induction Hpre as [s | h rest s s1 s2 Hh _ IH]; cbn;
    unfold mbind, M_bind, bind.
  - by rewrite Hpanic.
  - rewrite Hh. destruct (IH Hpanic) as [IHrun IHinv]. split; [exact IHrun|].
    by rewrite IHinv.
Qed.

Lemma Trigger_panic_propagates_witness :
  ∃ msg,
    filesystem.Trigger
      (filesystem.Use (filesystem.Use (filesystem.mkFileSystem ∅) "BeforeUpdate"
                         filesystem.HookCancelContext)
                      "BeforeUpdate" (@filesystem.HookValidateCapacityDiff fsfixtures.simpleFs))
      [] "BeforeUpdate" fsfixtures.fullQuotaState = Panicked msg.
Proof.
  eexists.
  refine (proj1 (Trigger_panic_propagates _ [] "BeforeUpdate"
                   [filesystem.HookCancelContext] []
                   (@filesystem.HookValidateCapacityDiff fsfixtures.simpleFs)
                   fsfixtures.fullQuotaState fsfixtures.fullQuotaState _ _ _ _)).
  - reflexivity.
  - eapply filesystem.allNil_cons; [reflexivity | apply filesystem.allNil_nil].
  - reflexivity.
Defined.

(** * Further properties of the hook units *)

(** [HookValidateCapacity] is a check and nothing else: it leaves the state
    (quota included) as it is, returns [ErrInsufficientCapacity] exactly
    when the remaining capacity is below the size of the header, and nil
    otherwise. *)
Theorem HookValidateCapacity_pure_check
    `{!filesystem.FsMethods} (ctx : filesystem.Context) (s : filesystem.State) :
  let remaining := filesystem.GetRemainingCapacity (filesystem.FsUser s) in
  let size := filesystem.InfoSize (filesystem.Header s) in
  ∃ err,
    filesystem.HookValidateCapacity ctx s = Returned err s ∧
    (err = Some filesystem.ErrInsufficientCapacity ↔ remaining < size) ∧
    (err = None ↔ size ≤ remaining).
Proof.
  intros remaining size. subst remaining size.
  unfold filesystem.HookValidateCapacity, filesystem.Info. run_monad.
  destruct (Z.ltb_spec (filesystem.GetRemainingCapacity (filesystem.FsUser s))
                       (filesystem.InfoSize (filesystem.Header s)));
    eexists; (split; [reflexivity|]); split; split; try done; intros; lia.
Qed.

(** [GenericAfterUpdate]: without an original file record on the context
    it returns [ErrObjectNotExist] and changes nothing.  With one, and the
    store reachable, it returns nil, the store holds the header's size for
    that record and no other record is changed, and the header's model is
    the original record with that size.  With the store out of reach the
    store's error comes back and no record is changed, but the header's
    model has been set to the original record all the same. *)
Theorem GenericAfterUpdate_outcomes (ctx : filesystem.Context) (s : filesystem.State) :
  let size := filesystem.InfoSize (filesystem.Header s) in
  ((∀ f, filesystem.Value ctx filesystem.FileModelCtx ≠ Some (filesystem.CtxFile f)) ->
     filesystem.GenericAfterUpdate ctx s
       = Returned (Some filesystem.ErrObjectNotExist) s) ∧
  (∀ f, filesystem.Value ctx filesystem.FileModelCtx = Some (filesystem.CtxFile f) ->
     (filesystem.StoreOnline s = true ->
        ∃ s',
          filesystem.GenericAfterUpdate ctx s = Returned None s' ∧
          filesystem.Model (filesystem.Header s')
            = filesystem.MFilePtr (Some (filesystem.withSize size f)) ∧
          filesystem.InfoSize (filesystem.Header s') = size ∧
          (is_Some (filesystem.Files s !! filesystem.ID f) ->
             filesystem.persistedSize s' (filesystem.ID f) = Some size) ∧
          (∀ id, id ≠ filesystem.ID f ->
             filesystem.Files s' !! id = filesystem.Files s !! id)) ∧
     (filesystem.StoreOnline s = false ->
        ∃ s',
          filesystem.GenericAfterUpdate ctx s
            = Returned (Some filesystem.ErrStoreUnavailable) s' ∧
          filesystem.Model (filesystem.Header s') = filesystem.MFilePtr (Some f) ∧
          filesystem.Files s' = filesystem.Files s)).
Proof.
  intros size. subst size.
  unfold filesystem.GenericAfterUpdate, filesystem.SetModel, filesystem.Info,
    filesystem.UpdateSize, filesystem.persistedSize.
  split.
  - intros Hno.
    destruct (filesystem.Value ctx filesystem.FileModelCtx) as [[f|t|]|];
      try done. by destruct (Hno f).
  - intros f ->. run_monad. split; intros ->; run_monad.
    + eexists. split; [reflexivity|]. cbn. split_and!; try done.
      * intros Hrec. by apply persisted_after_withSize.
      * intros id Hid. by rewrite lookup_alter_ne.
    + eexists. split; [reflexivity|]. done.
Qed.

Lemma GenericAfterUpdate_outcomes_witness :
  ∃ s',
    filesystem.GenericAfterUpdate [(filesystem.FileModelCtx, filesystem.CtxFile fsfixtures.report)]
      fsfixtures.fullQuotaState = Returned None s' ∧
    filesystem.persistedSize s' 1 = Some 50.
Proof.
  destruct (GenericAfterUpdate_outcomes
              [(filesystem.FileModelCtx, filesystem.CtxFile fsfixtures.report)]
              fsfixtures.fullQuotaState) as [_ Horigin].
  destruct (Horigin fsfixtures.report eq_refl) as [Honline _].
  destruct (Honline eq_refl) as (s' & Hrun & _ & _ & Hsize & _).
  exists s'. split; [exact Hrun|]. apply Hsize. by exists fsfixtures.report.
Defined.

(** [HookDeleteUploadSession] asks the cache to delete the one key [id]
    under [prefix] and returns nil whatever the cache answers: an error of
    the deletion is neither returned nor logged.  The session cache is what
    the cache left, everything else is as before. *)
Theorem HookDeleteUploadSession_discards_error
    `{!filesystem.CachePkg} (prefix id : string) (ctx : filesystem.Context)
    (s : filesystem.State) :
  let answer := filesystem.Deletes [id] prefix (filesystem.SessionCache s) in
  ∃ s',
    filesystem.HookDeleteUploadSession prefix id ctx s = Returned None s' ∧
    filesystem.SessionCache s' = answer.2 ∧
    filesystem.Log s' = filesystem.Log s ∧
    filesystem.Header s' = filesystem.Header s ∧
    filesystem.Files s' = filesystem.Files s ∧
    filesystem.Objects s' = filesystem.Objects s ∧
    filesystem.Cancelled s' = filesystem.Cancelled s.
Proof.
  intros answer. subst answer.
  unfold filesystem.HookDeleteUploadSession, filesystem.cacheDeletes. run_monad.
  destruct (filesystem.Deletes _ _ _) as [err c]. run_monad.
  eexists. split; [reflexivity|]. done.
Qed.

(** The chunk hooks at their edges: when the header's model is not a
    pointer to a file record (nil, a nil pointer, another type) both hooks
    panic; when the store is out of reach both return the store's error and
    leave the state, the persisted sizes included, as it is. *)
Theorem chunk_hooks_edges (ctx : filesystem.Context) (s : filesystem.State) :
  ((∀ f, filesystem.Model (filesystem.Header s) ≠ filesystem.MFilePtr (Some f)) ->
     (∃ msg, filesystem.HookChunkUploaded ctx s = Panicked msg) ∧
     (∃ msg, filesystem.HookChunkUploadFailed ctx s = Panicked msg)) ∧
  (∀ f, filesystem.Model (filesystem.Header s) = filesystem.MFilePtr (Some f) ->
     filesystem.StoreOnline s = false ->
     filesystem.HookChunkUploaded ctx s
       = Returned (Some filesystem.ErrStoreUnavailable) s ∧
     filesystem.HookChunkUploadFailed ctx s
       = Returned (Some filesystem.ErrStoreUnavailable) s).
Proof.
  unfold filesystem.HookChunkUploaded, filesystem.HookChunkUploadFailed,
    filesystem.modelUpdateSize, filesystem.Info, filesystem.SetModel,
    filesystem.UpdateSize.
  run_monad. split.
  - intros Hno.
    destruct (filesystem.Model (filesystem.Header s)) as [|[f|]|]; run_monad;
      try (split; by eexists). by destruct (Hno f).
  - intros f Hmodel Hoff. rewrite Hmodel. run_monad. rewrite Hoff. run_monad.
    rewrite <- Hmodel. destruct s as [? ? ? [] ? ? ? ? ? ?]. done.
Qed.

Lemma chunk_hooks_edges_witness :
  (∃ msg, filesystem.HookChunkUploaded [] fsfixtures.fullQuotaState = Panicked msg) ∧
  filesystem.HookChunkUploadFailed []
    (fsfixtures.state 0
       (fsfixtures.header "draft.txt" 30 20 (filesystem.MFilePtr (Some fsfixtures.draft)))
       fsfixtures.memDriver false)
  = Returned (Some filesystem.ErrStoreUnavailable)
      (fsfixtures.state 0
         (fsfixtures.header "draft.txt" 30 20 (filesystem.MFilePtr (Some fsfixtures.draft)))
         fsfixtures.memDriver false).
Proof.
  split.
  - destruct (chunk_hooks_edges [] fsfixtures.fullQuotaState) as [Hpanic _].
    apply Hpanic. discriminate.
  - destruct (chunk_hooks_edges []
                (fsfixtures.state 0
                   (fsfixtures.header "draft.txt" 30 20
                      (filesystem.MFilePtr (Some fsfixtures.draft)))
                   fsfixtures.memDriver false)) as [_ Hoff].
    apply (Hoff fsfixtures.draft eq_refl eq_refl).
Defined.

(** [HookDeleteTempFile] asks the driver to delete the header's save path
    and nothing else: the objects are what the driver left, the header, the
    file records, the session cache and the cancellations are as before;
    the log is as before when the driver succeeds and longer by exactly one
    warning, carrying the driver's error, when it fails. *)
Theorem HookDeleteTempFile_only_logs_failure
    (ctx : filesystem.Context) (s : filesystem.State) :
  let result :=
    filesystem.Delete (filesystem.FsHandler s) ctx
      [filesystem.SavePath (filesystem.Header s)] (filesystem.Objects s) in
  ∃ s',
    filesystem.HookDeleteTempFile ctx s = Returned None s' ∧
    filesystem.Objects s' = result.2 ∧
    filesystem.Header s' = filesystem.Header s ∧
    filesystem.Files s' = filesystem.Files s ∧
    filesystem.SessionCache s' = filesystem.SessionCache s ∧
    filesystem.Cancelled s' = filesystem.Cancelled s ∧
    filesystem.Log s' =
      (filesystem.Log s ++
         match result.1.2 with
         | Some e => [filesystem.LogWarning "Failed to clean-up temp files: %s" e]
         | None => []
         end)%list.
Proof.
  intros result. subst result.
  unfold filesystem.HookDeleteTempFile, filesystem.handlerDelete, filesystem.Info,
    filesystem.Warning.
  run_monad.
  destruct (filesystem.Delete _ _ _ _) as [[res [e|]] o]; run_monad;
    (eexists; split; [reflexivity|]; cbn; split_and!; try done).
  by rewrite app_nil_r.
Qed.

(** With the in-memory cache the entry of the session is gone and the
    other entries stay; with a cache out of reach the hook still returns nil
    and the entry stays. *)
Lemma HookDeleteUploadSession_discards_error_witness :
  (∃ s',
     @filesystem.HookDeleteUploadSession fsfixtures.memCache "callback_" "k1" []
        fsfixtures.sessionState = Returned None s' ∧
     filesystem.SessionCache s' !! "callback_k1" = None ∧
     filesystem.SessionCache s' !! "callback_k2" = Some "session 2") ∧
  (∃ s',
     @filesystem.HookDeleteUploadSession fsfixtures.downCache "callback_" "k1" []
        fsfixtures.sessionState = Returned None s' ∧
     filesystem.SessionCache s' !! "callback_k1" = Some "session 1").
Proof.
  split.
  - destruct (@HookDeleteUploadSession_discards_error fsfixtures.memCache
                "callback_" "k1" [] fsfixtures.sessionState)
      as (s' & Hrun & Hcache & _).
    exists s'. split; [exact Hrun|]. rewrite Hcache. split; reflexivity.
  - destruct (@HookDeleteUploadSession_discards_error fsfixtures.downCache
                "callback_" "k1" [] fsfixtures.sessionState)
      as (s' & Hrun & Hcache & _).
    exists s'. split; [exact Hrun|]. rewrite Hcache. reflexivity.
Defined.

(** [GenericAfterUpload] before the insertion: an error of
    [CreateDirectory] is returned as it is (it is not replaced, as an error
    of the insertion is), in the state [CreateDirectory] left, so neither
    the existence check nor the insertion runs; and an existence check that
    answers "exists" with a nil record makes the hook panic. *)
Theorem GenericAfterUpload_before_insert
    `{!filesystem.FsMethods} (ctx : filesystem.Context) (s s1 : filesystem.State)
    (folder : option filesystem.Folder) :
  let info := filesystem.Header s in
  (∀ e, filesystem.CreateDirectory ctx (filesystem.VirtualPath info) s
          = Returned (folder, Some e) s1 ->
        filesystem.GenericAfterUpload ctx s = Returned (Some e) s1) ∧
  (∀ s2, filesystem.CreateDirectory ctx (filesystem.VirtualPath info) s
           = Returned (folder, None) s1 ->
         filesystem.IsChildFileExist folder (filesystem.FileName info) s1
           = Returned (true, None) s2 ->
         ∃ msg, filesystem.GenericAfterUpload ctx s = Panicked msg).
Proof.
  intros info. subst info.
  unfold filesystem.GenericAfterUpload, filesystem.Info. run_monad. split.
  - intros e ->. done.
  - intros s2 -> Hchild. cbn. rewrite Hchild. cbn. by eexists.
Qed.

Lemma GenericAfterUpload_before_insert_witness :
  @filesystem.GenericAfterUpload fsfixtures.noDirectoryFs [] fsfixtures.fullQuotaState
  = Returned (Some (filesystem.errorString "directory store unavailable"))
      fsfixtures.fullQuotaState.
Proof.
  destruct (@GenericAfterUpload_before_insert fsfixtures.noDirectoryFs []
              fsfixtures.fullQuotaState fsfixtures.fullQuotaState None)
    as [Hdir _].
  apply Hdir. reflexivity.
Defined.
